(** * py-ninja: the Temperature value type (ninja/units.py) and the
      device model (ninja/devices.py)

    The development follows the two source files, which are Python 2.7 code
    ([from exceptions import ...], [__div__], [Decimal] built from a float).
    [Decimal] is the part of Python's [decimal] module that units.py relies
    on, under the default context (28 significant digits, round-half-even).
    [Units] is the [Temperature] class; its instances live in a heap because
    the class mutates them in place.  [Devices] is the [Device] hierarchy
    with its [heartbeat] and [asDict] methods.  The properties come after
    the definitions, in [DecimalFacts], [UnitsFacts] and [DevicesFacts];
    [UnitsMore] and [DevicesMore] add the conversions to integers, the laws
    and the accuracy of the operators, construction, buttons, the registry
    and the polling loop. *)

From Stdlib Require Import ZArith QArith Qabs Qpower Lia Lqa Bool String.
From stdpp Require Import base option list.

Local Open Scope Z_scope.

(** ** Outcomes of Python code *)

(** The exceptions the two files can raise or let through. *)
Inductive exn :=
| ValueError          (* Temperature.__setattr__, datetime.utcfromtimestamp *)
| TypeError           (* Decimal(None), Decimal op float, arity mismatch *)
| AttributeError      (* object.__getattribute__ on a missing attribute *)
| InvalidOperation    (* decimal: 0 / 0 *)
| DivisionByZero      (* decimal: x / 0 *)
| RuntimeError.       (* maximum recursion depth exceeded *)

Inductive result (A : Type) :=
| Ok (a : A)
| Raise (e : exn).
Arguments Ok {A} a.
Arguments Raise {A} e.

(** ** Decimal arithmetic *)

Module Decimal.

(** A finite decimal number [mant * 10 ^ expo].  The coefficient carries the
    sign, so a negative zero is not told apart from zero: no comparison and
    no operation below tells them apart either.  Exponents are unbounded
    (the context's Emax and Emin are not modelled), and the special values
    NaN and Infinity are outside the model. *)
Record t := mk { mant : Z; expo : Z }.

Definition prec : Z := 28.

(** [len(str(n))] for [n >= 0]: the number of decimal digits. *)
Fixpoint ndigits_pos (fuel : nat) (n : Z) : Z :=
  match fuel with
  | O => 1
  | S fuel' => if n <? 10 then 1 else 1 + ndigits_pos fuel' (n / 10)
  end.

Definition ndigits (n : Z) : Z :=
  ndigits_pos (Z.to_nat (Z.log2 (Z.abs n))) (Z.abs n).

(** [_round_half_even]: the coefficient [a >= 0] loses its last [drop]
    digits. *)
Definition round_half_even (a drop : Z) : Z :=
  let p := 10 ^ drop in
  let q := a / p in
  let r := a mod p in
  let half := 5 * 10 ^ (drop - 1) in
  if (half <? r) || ((r =? half) && Z.odd q) then q + 1 else q.

(** [Decimal._fix]: round to the context's precision. *)
Definition fix_ (d : t) : t :=
  let a := Z.abs (mant d) in
  if a =? 0 then d
  else
    let exp_min := ndigits a + expo d - prec in
    if expo d <? exp_min then
      let q := round_half_even a (exp_min - expo d) in
      if prec <? ndigits q
      then mk (Z.sgn (mant d) * (q / 10)) (exp_min + 1)
      else mk (Z.sgn (mant d) * q) exp_min
    else d.

Definition of_int (n : Z) : t := mk n 0.

(** [Decimal.from_float] on the float [m * 2 ^ e]: the fraction is brought to
    lowest terms [n / 2 ^ k] and becomes [n * 5 ^ k * 10 ^ (- k)]. *)
Fixpoint lowest_terms (steps : nat) (n k : Z) : Z * Z :=
  match steps with
  | O => (n, k)
  | S steps' => if Z.even n then lowest_terms steps' (n / 2) (k - 1) else (n, k)
  end.

Definition from_float (m e : Z) : t :=
  if 0 <=? e then mk (m * 2 ^ e) 0
  else let '(n, k) := lowest_terms (Z.to_nat (- e)) m (- e) in
       mk (n * 5 ^ k) (- k).

Definition neg (a : t) : t := mk (- mant a) (expo a).

(** [__add__]: the operands are brought to the smaller exponent, added
    exactly, and the sum is rounded. *)
Definition add (a b : t) : t :=
  let e := Z.min (expo a) (expo b) in
  fix_ (mk (mant a * 10 ^ (expo a - e) + mant b * 10 ^ (expo b - e)) e).

(** [__sub__] is [self.__add__(other.copy_negate())]. *)
Definition sub (a b : t) : t := add a (neg b).

Definition mul (a b : t) : t :=
  fix_ (mk (mant a * mant b) (expo a + expo b)).

(** The loop of [__truediv__] that brings an exact quotient towards the ideal
    exponent: at most [steps] trailing zeros are removed. *)
Fixpoint strip_zeros (steps : nat) (coeff exp : Z) : Z * Z :=
  match steps with
  | O => (coeff, exp)
  | S steps' =>
      if coeff mod 10 =? 0 then strip_zeros steps' (coeff / 10) (exp + 1)
      else (coeff, exp)
  end.

(** [__truediv__] (which is [__div__] in Python 2). *)
Definition div (a b : t) : result t :=
  if mant b =? 0 then
    if mant a =? 0 then Raise InvalidOperation else Raise DivisionByZero
  else if mant a =? 0 then Ok (fix_ (mk 0 (expo a - expo b)))
  else
    let sign := Z.sgn (mant a) * Z.sgn (mant b) in
    let shift := ndigits (mant b) - ndigits (mant a) + prec + 1 in
    let exp := expo a - expo b - shift in
    let num := if 0 <=? shift then Z.abs (mant a) * 10 ^ shift else Z.abs (mant a) in
    let den := if 0 <=? shift then Z.abs (mant b) else Z.abs (mant b) * 10 ^ (- shift) in
    let coeff := num / den in
    let remainder := num mod den in
    let '(coeff', exp') :=
      if remainder =? 0
      then strip_zeros (Z.to_nat (expo a - expo b - exp)) coeff exp
      else (if coeff mod 5 =? 0 then coeff + 1 else coeff, exp) in
    Ok (fix_ (mk (sign * coeff') exp')).

(** [_cmp]: numeric comparison. *)
Definition cmp (a b : t) : comparison :=
  let e := Z.min (expo a) (expo b) in
  (mant a * 10 ^ (expo a - e)) ?= (mant b * 10 ^ (expo b - e)).

Definition ltb (a b : t) : bool := match cmp a b with Lt => true | _ => false end.
Definition leb (a b : t) : bool := match cmp a b with Gt => false | _ => true end.
Definition eqb (a b : t) : bool := match cmp a b with Eq => true | _ => false end.


(** The number a decimal stands for. *)
Definition value (d : t) : Q := (inject_Z (mant d) * inject_Z 10 ^ expo d)%Q.

(** [10 ^ e] as a rational number. *)
Definition p10 (e : Z) : Q := (inject_Z 10 ^ e)%Q.

(** The relative error of one rounding to 28 digits, and of a division. *)
Definition ulp_half : Q := 5 # 10000000000000000000000000000.
Definition ulp_div : Q := 7 # 10000000000000000000000000000.

End Decimal.

Abbreviation Decimal := Decimal.t.

(** ** State and exceptions *)

(** Python code as a function of the state it mutates: it returns the state
    it leaves behind together with its value or the exception it raised. *)
Definition M (S A : Type) : Type := S -> S * result A.

Definition ret {S A} (a : A) : M S A := fun s => (s, Ok a).
Definition raise {S A} (e : exn) : M S A := fun s => (s, Raise e).
Definition bind {S A B} (m : M S A) (f : A -> M S B) : M S B :=
  fun s => match m s with
           | (s', Ok a) => f a s'
           | (s', Raise e) => (s', Raise e)
           end.
Definition lift {S A} (r : result A) : M S A := fun s => (s, r).

Notation "x <- m ;; f" := (bind m (fun x => f))
  (at level 100, m at next level, right associativity).
Notation "m ;;; f" := (bind m (fun _ => f))
  (at level 100, right associativity).

(** ** ninja/units.py *)

Module Units.

Abbreviation loc := nat.

(** The Python values that reach the two files: [None], an [int], a finite
    [float] (the number [m * 2 ^ e]), a [Decimal], and a reference to a
    [Temperature] instance. *)
Inductive value :=
| VNone
| VInt (n : Z)
| VFloat (m e : Z)
| VDecimal (d : Decimal)
| VRef (l : loc).

(** An instance of [Temperature]: the only entry its methods ever put in
    its [__dict__] is [k]; a fresh instance has none. *)
Record instance := Instance { k : option Decimal }.

Abbreviation heap := (list instance).

(** The attribute names the class knows: [k] and the keys of [equations]. *)
Inductive attr := K | C | F | R.

Definition equations (nm : attr) : option (Decimal * Decimal * Decimal) :=
  match nm with
  | C => Some (Decimal.mk 10 (-1), Decimal.mk 0 (-1), Decimal.mk (-27315) (-2))
  | F => Some (Decimal.mk 18 (-1), Decimal.mk (-27315) (-2), Decimal.mk 320 (-1))
  | R => Some (Decimal.mk 18 (-1), Decimal.mk 0 (-1), Decimal.mk 0 (-1))
  | K => None
  end.

(** [Decimal(value)]: exact on an int, a float and a Decimal; anything else
    is a [TypeError]. *)
Definition Decimal_of (v : value) : result Decimal :=
  match v with
  | VInt n => Ok (Decimal.of_int n)
  | VFloat m e => Ok (Decimal.from_float m e)
  | VDecimal d => Ok d
  | VNone | VRef _ => Raise TypeError
  end.

(** [_convert_other]: the implicit conversion of the right operand of a
    Decimal operator; floats are accepted by the comparisons only. *)
Definition convert_other (allow_float : bool) (v : value) : option Decimal :=
  match v with
  | VInt n => Some (Decimal.of_int n)
  | VDecimal d => Some d
  | VFloat m e => if allow_float then Some (Decimal.from_float m e) else None
  | VNone | VRef _ => None
  end.

(** [d op other] for the four arithmetic operators of [Decimal]. *)
Definition arith (op : Decimal -> Decimal -> result Decimal)
    (d : Decimal) (other : value) : result Decimal :=
  match convert_other false other with
  | Some o => op d o
  | None => Raise TypeError
  end.

Definition total (op : Decimal -> Decimal -> Decimal) (a b : Decimal) : result Decimal :=
  Ok (op a b).

(** [d op other] for the six comparisons of [Decimal].  When [other] does
    not convert, Python 2 falls back: [None] is smaller than any object, and
    a [Temperature] without [k] fails in its reflected method. *)
Definition compare_with (test : comparison -> bool)
    (d : Decimal) (other : value) : result bool :=
  match convert_other true other with
  | Some o => Ok (test (Decimal.cmp d o))
  | None =>
      match other with
      | VNone => Ok (test Gt)
      | _ => Raise AttributeError
      end
  end.

Definition is_lt (c : comparison) := match c with Lt => true | _ => false end.
Definition is_le (c : comparison) := match c with Gt => false | _ => true end.
Definition is_gt (c : comparison) := match c with Gt => true | _ => false end.
Definition is_ge (c : comparison) := match c with Lt => false | _ => true end.
Definition is_eq (c : comparison) := match c with Eq => true | _ => false end.
Definition is_ne (c : comparison) := match c with Eq => false | _ => true end.

(** *** Attribute access *)

(** [self.k] *)
Definition get_k (self : loc) : M heap Decimal :=
  fun h => match h !! self with
           | Some (Instance (Some d)) => (h, Ok d)
           | _ => (h, Raise AttributeError)
           end.

(** [object.__setattr__(self, 'k', d)] *)
Definition object_setattr (self : loc) (d : Decimal) : M heap unit :=
  fun h => (<[self := Instance (Some d)]> h, Ok tt).

(** The expression [(self.k + eq[1]) * eq[0] + eq[2]] of [__getattr__]. *)
Definition to_unit (eq : Decimal * Decimal * Decimal) (kv : Decimal) : Decimal :=
  let '(eq0, eq1, eq2) := eq in
  Decimal.add (Decimal.mul (Decimal.add kv eq1) eq0) eq2.

(** The expression [(value - eq[2]) / eq[0] - eq[1]] of [__setattr__]. *)
Definition to_kelvin (eq : Decimal * Decimal * Decimal) (dvalue : Decimal) : result Decimal :=
  let '(eq0, eq1, eq2) := eq in
  match Decimal.div (Decimal.sub dvalue eq2) eq0 with
  | Ok q => Ok (Decimal.sub q eq1)
  | Raise e => Raise e
  end.

Definition __getattr__ (self : loc) (nm : attr) : M heap Decimal :=
  match equations nm with
  | Some eq => kv <- get_k self ;; ret (to_unit eq kv)
  | None => get_k self
  end.

(** [__setattr__] calls itself through [self.k = ...]; [depth] bounds the
    nesting, as the interpreter's recursion limit does. *)
Fixpoint setattr_rec (depth : nat) (self : loc) (nm : attr) (v : value) : M heap unit :=
  match depth with
  | O => raise RuntimeError
  | S depth' =>
      dvalue <- lift (Decimal_of v) ;;
      match equations nm with
      | Some eq =>
          kv <- lift (to_kelvin eq dvalue) ;;
          setattr_rec depth' self K (VDecimal kv)
      | None => object_setattr self dvalue
      end ;;;
      kv <- get_k self ;;
      if Decimal.ltb kv (Decimal.of_int 0) then
        setattr_rec depth' self K (VInt 0) ;;;
        raise ValueError
      else ret tt
  end.

Definition __setattr__ : loc -> attr -> value -> M heap unit := setattr_rec 3.

(** *** Construction *)

Definition unit_of_key (key : string) : option attr :=
  if String.eqb key "c" then Some C
  else if String.eqb key "f" then Some F
  else if String.eqb key "r" then Some R
  else None.

(** The loop of [__init__] over the keyword arguments, in the order the
    dictionary yields them: the first unit keyword is written, then [break]. *)
Fixpoint init_kwargs (self : loc) (kwargs : list (string * value)) : M heap unit :=
  match kwargs with
  | [] => ret tt
  | (key, v) :: rest =>
      match unit_of_key key with
      | Some nm => __setattr__ self nm v
      | None => init_kwargs self rest
      end
  end.

Definition __init__ (self : loc) (k0 : value) (kwargs : list (string * value)) : M heap unit :=
  __setattr__ self K k0 ;;;
  init_kwargs self kwargs.

(** Allocation of a fresh instance, with an empty [__dict__]. *)
Definition alloc : M heap loc :=
  fun h => (h ++ [Instance None], Ok (length h)).

(** The call [Temperature(k, **kwargs)]. *)
Definition Temperature (k0 : value) (kwargs : list (string * value)) : M heap loc :=
  self <- alloc ;;
  __init__ self k0 kwargs ;;;
  ret self.

(** The default of the parameter [k] is the float [0.0]. *)
Definition k_default : value := VFloat 0 0.

(** *** Operators *)

(** [if hasattr(other, 'k'): other = other.k] *)
Definition kelvin (other : value) : M heap value :=
  fun h => match other with
           | VRef l =>
               match h !! l with
               | Some (Instance (Some d)) => (h, Ok (VDecimal d))
               | _ => (h, Ok other)
               end
           | _ => (h, Ok other)
           end.

(** The body the six comparison methods share:
    [if hasattr(other, 'k'): other = other.k] and then [return self.k op other]. *)
Definition comparison_method (test : comparison -> bool)
    (self : loc) (other : value) : M heap bool :=
  other <- kelvin other ;;
  kv <- get_k self ;;
  lift (compare_with test kv other).

Definition __lt__ := comparison_method is_lt.
Definition __le__ := comparison_method is_le.
Definition __gt__ := comparison_method is_gt.
Definition __ge__ := comparison_method is_ge.
Definition __eq__ := comparison_method is_eq.
Definition __ne__ := comparison_method is_ne.

(** The body [__add__], [__sub__], [__mul__] and [__div__] share: the same
    first line, then [return Temperature(self.k op other)]. *)
Definition binary_method (op : Decimal -> Decimal -> result Decimal)
    (self : loc) (other : value) : M heap loc :=
  other <- kelvin other ;;
  kv <- get_k self ;;
  d <- lift (arith op kv other) ;;
  Temperature (VDecimal d) [].

Definition __add__ := binary_method (total Decimal.add).
Definition __sub__ := binary_method (total Decimal.sub).
Definition __mul__ := binary_method (total Decimal.mul).

(** The body of the in-place methods: [self.k = self.k op other], then
    [return self]. *)
Definition inplace_method (op : Decimal -> Decimal -> result Decimal)
    (self : loc) (other : value) : M heap loc :=
  other <- kelvin other ;;
  kv <- get_k self ;;
  d <- lift (arith op kv other) ;;
  __setattr__ self K (VDecimal d) ;;;
  ret self.

Definition __iadd__ := inplace_method (total Decimal.add).
Definition __imul__ := inplace_method (total Decimal.mul).

(** *** Conversions *)



(** *** Notions the statements about the class use *)

Definition zero : Decimal := Decimal.of_int 0.

(** The Kelvin value an attribute write computes from the value it is given:
    the decimal itself under [k], the inverted transform under a unit. *)
Definition written (nm : attr) (v : value) : result Decimal :=
  match Decimal_of v with
  | Raise e => Raise e
  | Ok d => match equations nm with
            | Some eq => to_kelvin eq d
            | None => Ok d
            end
  end.

(** What the guard of [__setattr__] makes of a Kelvin value [d]: a negative
    one is replaced by zero and reported. *)
Definition guarded_store (self : loc) (d : Decimal) (h : heap) : heap * result unit :=
  if Decimal.ltb d zero then (<[self := Instance (Some zero)]> h, Raise ValueError)
  else (<[self := Instance (Some d)]> h, Ok tt).

(** The keyword at which the loop of [__init__] stops. *)
Fixpoint first_unit (kwargs : list (string * value)) : option (attr * value) :=
  match kwargs with
  | [] => None
  | (key, v) :: rest =>
      match unit_of_key key with
      | Some nm => Some (nm, v)
      | None => first_unit rest
      end
  end.

(** The heap and the outcome of [Temperature(k0, **kwargs)]. *)
Definition constructed (k0 : value) (kwargs : list (string * value)) (h : heap)
  : heap * result loc :=
  match written K k0 with
  | Raise e => (h ++ [Instance None], Raise e)
  | Ok d0 =>
      if Decimal.ltb d0 zero then (h ++ [Instance (Some zero)], Raise ValueError)
      else
        match first_unit kwargs with
        | None => (h ++ [Instance (Some d0)], Ok (length h))
        | Some (nm, v) =>
            match written nm v with
            | Raise e => (h ++ [Instance (Some d0)], Raise e)
            | Ok d =>
                if Decimal.ltb d zero
                then (h ++ [Instance (Some zero)], Raise ValueError)
                else (h ++ [Instance (Some d)], Ok (length h))
            end
        end
  end.


(** The number a bare numeric value stands for. *)
Definition number (x : value) : option Q :=
  match x with
  | VInt n => Some (inject_Z n)
  | VFloat m e => Some (inject_Z m * inject_Z 2 ^ e)%Q
  | VDecimal d => Some (Decimal.value d)
  | VNone | VRef _ => None
  end.

(** The number a right operand stands for: the Kelvin value of a
    Temperature, the value of a bare number. *)
Definition kelvin_value (h : heap) (x : value) : option Q :=
  match x with
  | VRef l => match h !! l with
              | Some (Instance (Some d)) => Some (Decimal.value d)
              | _ => None
              end
  | _ => number x
  end.

(** How far a unit read back may lie from the number written, relative to
    the magnitude of that number. *)
Definition tolerance : Q := 1 # 100000000000000000000000000.

(** The mutations of a Temperature: [Temperature(k0, **kwargs)],
    [self.nm = v], [self op other] and [self op= other]. *)
Inductive operator := Add | Sub | Mul | Div.


Definition decimal_op (o : operator) : Decimal -> Decimal -> result Decimal :=
  match o with
  | Add => total Decimal.add
  | Sub => total Decimal.sub
  | Mul => total Decimal.mul
  | Div => Decimal.div
  end.




(** The Kelvin value of the right operand and of [self op other]. *)
Definition operand (h : heap) (other : value) : value :=
  match other with
  | VRef l => match h !! l with
              | Some (Instance (Some d)) => VDecimal d
              | _ => other
              end
  | _ => other
  end.






(** An operand of the arithmetic operators that is not a float. *)
Definition is_float (x : value) : bool :=
  match x with VFloat _ _ => true | _ => false end.

End Units.

(** ** ninja/devices.py *)

Module Devices.

Import Units.

(** [Device] and its subclasses. *)
Inductive device_class :=
| Device | TemperatureSensor | HumiditySensor | LightSensor
| Accelerometer | Button | RGBLED.

(** A [datetime], as seconds since the epoch. *)
Definition datetime := Z.

(** [datetime.utcfromtimestamp]: the year has to lie between 1 and 9999. *)
Definition utcfromtimestamp (seconds : Z) : result datetime :=
  if (-62135596800 <=? seconds) && (seconds <=? 253402300799)
  then Ok seconds else Raise ValueError.

Record device := {
  cls : device_class;
  guid : string;
  type : option string;
  name : option string;
  is_sensor : bool;
  is_actuator : bool;
  data : value;
  last_heartbeat : option datetime;
  last_read : option datetime
}.

Definition set_last_heartbeat (t : datetime) (self : device) : device :=
  {| cls := cls self; guid := guid self; type := type self; name := name self;
     is_sensor := is_sensor self; is_actuator := is_actuator self;
     data := data self; last_heartbeat := Some t; last_read := last_read self |}.

Definition set_data (v : value) (self : device) : device :=
  {| cls := cls self; guid := guid self; type := type self; name := name self;
     is_sensor := is_sensor self; is_actuator := is_actuator self;
     data := v; last_heartbeat := last_heartbeat self; last_read := last_read self |}.

Definition set_last_read (t : datetime) (self : device) : device :=
  {| cls := cls self; guid := guid self; type := type self; name := name self;
     is_sensor := is_sensor self; is_actuator := is_actuator self;
     data := data self; last_heartbeat := last_heartbeat self; last_read := Some t |}.

(** [Device.Events] *)
Inductive event_kind := HEARTBEAT | CHANGE.

(** What a method of a device works on: the heap of Temperature instances,
    the device itself, and the events fired so far, oldest first. *)
Record world := World {
  temps : heap;
  self_ : device;
  fired : list (event_kind * list value)
}.

Definition in_heap {A} (m : M heap A) : M world A :=
  fun w => let '(h, r) := m (temps w) in (World h (self_ w) (fired w), r).

Definition get_self : M world device := fun w => (w, Ok (self_ w)).

Definition update_self (f : device -> device) : M world unit :=
  fun w => (World (temps w) (f (self_ w)) (fired w), Ok tt).

(** Modelled from the spec: [Events._fire] (ninja/events.py is not among the
    sources).  Firing an event invokes the listeners registered for its kind
    with the given arguments; the call is recorded in [fired], and the
    listeners are taken to return. *)
Definition _fire (kind : event_kind) (args : list value) : M world unit :=
  fun w => (World (temps w) (self_ w) (fired w ++ [(kind, args)]), Ok tt).

(** [copy.deepcopy]: numbers and [None] are returned as they are; a
    Temperature is rebuilt as a new instance with a copy of its [__dict__]. *)
Definition deepcopy (v : value) : M heap value :=
  match v with
  | VRef l =>
      fun h => match h !! l with
               | Some inst => (h ++ [inst], Ok (VRef (length h)))
               | None => (h, Raise AttributeError)
               end
  | _ => ret v
  end.

(** [a != b].  A Temperature operand answers through its [__ne__], on
    whichever side it stands; numbers compare by value; [None] differs from
    everything but itself. *)
Definition py_ne (a b : value) : M heap bool :=
  match a, b with
  | VRef l, _ => __ne__ l b
  | _, VRef l => __ne__ l a
  | VNone, VNone => ret false
  | _, _ =>
      match convert_other true a, convert_other true b with
      | Some x, Some y => ret (is_ne (Decimal.cmp x y))
      | _, _ => ret true
      end
  end.

(** The response of [api.getDeviceHeartbeat(guid)]:
    [{'id': id, 'data': {'DA': DA, 'timestamp': timestamp}}]. *)
Record response := { id : Z; DA : value; timestamp : Z }.

Definition _parse (c : device_class) (raw : value) : M heap value :=
  match c with
  | TemperatureSensor =>
      l <- Temperature k_default [("c"%string, raw)] ;; ret (VRef l)
  | _ => ret raw
  end.

(** [heartbeat]: the transport's answer [resp] and the clock reading [now]
    of [datetime.utcnow()] are given. *)
Definition heartbeat (resp : response) (now : datetime) (silent : bool)
  : M world (option datetime * value) :=
  (if id resp =? 0 then
     self <- get_self ;;
     previous_data <- in_heap (deepcopy (data self)) ;;
     update_self (set_last_heartbeat now) ;;;
     new_data <- in_heap (_parse (cls self) (DA resp)) ;;
     update_self (set_data new_data) ;;;
     t <- lift (utcfromtimestamp (timestamp resp / 1000)) ;;
     update_self (set_last_read t) ;;;
     if negb silent then
       self <- get_self ;;
       _fire HEARTBEAT [data self] ;;;
       changed <- in_heap (py_ne (data self) previous_data) ;;
       if changed then _fire CHANGE [data self; previous_data] else ret tt
     else ret tt
   else ret tt) ;;;
  self <- get_self ;;
  ret (last_read self, data self).

(** The dictionary [asDict] builds. *)
Record device_dict := {
  dict_guid : string;
  dict_type : option string;
  dict_name : option string;
  dict_is_sensor : bool;
  dict_is_actuator : bool;
  dict_data : value;
  dict_last_heartbeat : option datetime;
  dict_last_read : option datetime
}.

Definition set_dict_data (v : value) (d : device_dict) : device_dict :=
  {| dict_guid := dict_guid d; dict_type := dict_type d; dict_name := dict_name d;
     dict_is_sensor := dict_is_sensor d; dict_is_actuator := dict_is_actuator d;
     dict_data := v; dict_last_heartbeat := dict_last_heartbeat d;
     dict_last_read := dict_last_read d |}.

Section Float.

(** The builtin [float] on a number; the rounding to a binary float is not
    modelled. *)
Variable float : value -> result value.

(** [float(x)]: a Temperature answers through [__float__], which is
    [float(self.k)]. *)
Definition py_float (x : value) : M heap value :=
  match x with
  | VRef l => kv <- get_k l ;; lift (float (VDecimal kv))
  | _ => lift (float x)
  end.

(** [_dataToJSON] is declared with the single parameter [self]; [args] are
    the further positional arguments of a call. *)
Definition _dataToJSON (self : device) (args : list value) : M heap value :=
  match args with
  | [] =>
      match cls self with
      | TemperatureSensor => py_float (data self)
      | _ => ret (data self)
      end
  | _ => raise TypeError
  end.

Definition asDict (self : device) (for_json : bool) : M heap device_dict :=
  let device_dict :=
    {| dict_guid := guid self; dict_type := type self; dict_name := name self;
       dict_is_sensor := is_sensor self; dict_is_actuator := is_actuator self;
       dict_data := data self; dict_last_heartbeat := last_heartbeat self;
       dict_last_read := last_read self |} in
  if for_json then
    d <- _dataToJSON self [dict_data device_dict] ;;
    ret (set_dict_data d device_dict)
  else ret device_dict.

End Float.

(** *** Construction, buttons, the registry, the polling loop *)

(** The descriptor [info] of [__init__]: a dictionary with at most the keys
    [device_type], [shortName], [is_sensor] and [is_actuator], strings under
    the first two.  A key that is absent reads as [None], which is what
    [info.get(key, None)] makes of it. *)
Record descriptor := {
  device_type : option string;
  shortName : option string;
  info_is_sensor : value;
  info_is_actuator : value
}.

(** The default [info={}]. *)
Definition no_info : descriptor :=
  {| device_type := None; shortName := None;
     info_is_sensor := VNone; info_is_actuator := VNone |}.

(** [a == b], with the same dispatch as [!=]. *)
Definition py_eq (a b : value) : M heap bool :=
  match a, b with
  | VRef l, _ => __eq__ l b
  | _, VRef l => __eq__ l a
  | VNone, VNone => ret true
  | _, _ =>
      match convert_other true a, convert_other true b with
      | Some x, Some y => ret (is_eq (Decimal.cmp x y))
      | _, _ => ret false
      end
  end.

(** [__init__] of the class [c] (no subclass overrides it); the [api] object
    and the listener table are not part of [device]. *)
Definition __init__ (c : device_class) (guid_ : string) (info : descriptor) : M heap device :=
  sensor <- py_eq (info_is_sensor info) (VInt 1) ;;
  actuator <- py_eq (info_is_actuator info) (VInt 1) ;;
  ret {| cls := c; guid := guid_; type := device_type info; name := shortName info;
         is_sensor := sensor; is_actuator := actuator;
         data := VNone; last_heartbeat := None; last_read := None |}.

(** [Button.isPushed]: [self.data == 0]. *)
Definition isPushed (self : device) : M heap bool :=
  py_eq (data self) (VInt 0).

(** [TYPE_MAP], and [TYPE_MAP.get(key)]. *)
Definition TYPE_MAP : list (string * device_class) :=
  [("button"%string, Button); ("rgbled"%string, RGBLED);
   ("orientation"%string, Accelerometer); ("temperature"%string, TemperatureSensor);
   ("humidity"%string, HumiditySensor); ("light"%string, LightSensor)].

Fixpoint dict_get {A} (d : list (string * A)) (key : string) : option A :=
  match d with
  | (key', a) :: rest => if String.eqb key' key then Some a else dict_get rest key
  | nil => None
  end.

(** [pulse]: the loop has no exit of its own.  Given are the answers of the
    transport and the readings of the clock that its successive iterations
    meet; the result is the run of these iterations ([time.sleep] changes
    nothing that is modelled), and [Ok] says that the loop is still going. *)
Fixpoint pulse (answers : list (response * datetime)) : M world unit :=
  match answers with
  | [] => ret tt
  | (resp, now) :: rest => heartbeat resp now false ;;; pulse rest
  end.

(** *** Notions the statements about devices use *)

(** What a datum stands for: nothing for [None], its number for a number,
    its Kelvin value for a Temperature. *)
Inductive meaning := MNone | MNumber (q : Q).

Definition meaning_of (h : heap) (v : value) : option meaning :=
  match v with
  | VNone => Some MNone
  | _ => option_map MNumber (kelvin_value h v)
  end.

(** Equality of what two data stand for. *)
Definition same (a b : meaning) : Prop :=
  match a, b with
  | MNone, MNone => True
  | MNumber x, MNumber y => (x == y)%Q
  | _, _ => False
  end.

(** A datum that is not a Temperature. *)
Definition plain (v : value) : bool :=
  match v with VRef _ => false | _ => true end.

(** The fields [heartbeat] has no assignment to. *)
Definition identity (self : device)
  : device_class * string * option string * option string * bool * bool :=
  (cls self, guid self, type self, name self, is_sensor self, is_actuator self).

(** The events of one kind among those fired. *)
Definition is_kind (kind : event_kind) (e : event_kind * list value) : bool :=
  match kind, e.1 with
  | HEARTBEAT, HEARTBEAT | CHANGE, CHANGE => true
  | _, _ => false
  end.

Definition count_kind (kind : event_kind) (events : list (event_kind * list value)) : nat :=
  length (List.filter (is_kind kind) events).

(** The answers of the transport that carry a reading. *)
Definition answered (a : response * datetime) : bool := id a.1 =? 0.

End Devices.

(** * Properties *)

(** ** Decimal arithmetic: digits, rounding, values *)

Module DecimalFacts.

Import Decimal.

Lemma pow10_gt0 n : 0 <= n -> 0 < 10 ^ n.
Proof. intros; apply Z.pow_pos_nonneg; lia. Qed.

Lemma pow10_succ n : 0 <= n -> 10 ^ (n + 1) = 10 * 10 ^ n.
Proof. intros. rewrite Z.pow_add_r by lia. lia. Qed.

Lemma ndigits_pos_spec fuel : forall n,
  0 < n -> n < 2 ^ (Z.of_nat fuel + 1) ->
  let r := ndigits_pos fuel n in
  1 <= r /\ 10 ^ (r - 1) <= n < 10 ^ r.
Proof.
  induction fuel as [|fuel IH]; intros n Hn Hlt; cbn [ndigits_pos].
  - change (2 ^ (Z.of_nat 0 + 1)) with 2 in Hlt. simpl. lia.
  - destruct (Z.ltb_spec n 10) as [H10|H10].
    + simpl. lia.
    + assert (Hq : 0 < n / 10) by (apply Z.div_str_pos; lia).
      assert (Hq2 : n / 10 < 2 ^ (Z.of_nat fuel + 1)).
      { apply Z.div_lt_upper_bound; [lia|].
        replace (Z.of_nat (S fuel) + 1) with ((Z.of_nat fuel + 1) + 1) in Hlt by lia.
        rewrite Z.pow_add_r in Hlt by lia. lia. }
      destruct (IH _ Hq Hq2) as (Hr & Hlo & Hhi).
      set (r := ndigits_pos fuel (n / 10)) in *.
      replace (1 + r - 1) with ((r - 1) + 1) by lia.
      replace (1 + r) with (r + 1) by lia.
      rewrite !pow10_succ by lia.
      pose proof (Z.div_mod n 10 ltac:(lia)) as Hdm.
      pose proof (Z.mod_pos_bound n 10 ltac:(lia)) as Hm.
      lia.
Qed.

Lemma ndigits_spec n : 0 < n -> 1 <= ndigits n /\ 10 ^ (ndigits n - 1) <= n < 10 ^ ndigits n.
Proof.
  intros Hn. unfold ndigits. rewrite (Z.abs_eq n) by lia.
  apply ndigits_pos_spec; [lia|].
  rewrite Z2Nat.id by apply Z.log2_nonneg.
  replace (Z.log2 n + 1) with (Z.succ (Z.log2 n)) by lia.
  apply Z.log2_spec; lia.
Qed.

Lemma ndigits_abs n : ndigits (Z.abs n) = ndigits n.
Proof. unfold ndigits. now rewrite Z.abs_idemp. Qed.

(** Rounding a coefficient. *)
Lemma round_half_even_spec a drop :
  0 <= a -> 0 < drop ->
  let q := round_half_even a drop in
  a / 10 ^ drop <= q <= a / 10 ^ drop + 1 /\
  2 * Z.abs (q * 10 ^ drop - a) <= 10 ^ drop.
Proof.
  intros Ha Hd. unfold round_half_even.
  assert (Hp : 0 < 10 ^ drop) by (apply pow10_gt0; lia).
  assert (Hp' : 10 ^ drop = 10 * 10 ^ (drop - 1)).
  { replace drop with ((drop - 1) + 1) at 1 by lia. apply pow10_succ. lia. }
  pose proof (Z.div_mod a (10 ^ drop) ltac:(lia)) as Hdm.
  pose proof (Z.mod_pos_bound a (10 ^ drop) Hp) as Hm.
  set (p := 10 ^ drop) in *. set (q := a / p) in *. set (r := a mod p) in *.
  set (h := 10 ^ (drop - 1)) in *.
  destruct (Z.ltb_spec (5 * h) r) as [H1|H1]; simpl.
  - split; [lia|]. nia.
  - destruct (Z.eqb_spec r (5 * h)) as [H2|H2]; simpl.
    + destruct (Z.odd q); split; try lia; nia.
    + split; [lia|]. nia.
Qed.

Lemma fix_spec d :
  exists q g,
    fix_ d = mk (Z.sgn (mant d) * q) (expo d + g) /\
    0 <= g /\ 0 <= q /\ (mant d <> 0 -> 0 < q) /\
    2 * Z.abs (q * 10 ^ g - Z.abs (mant d)) * 10 ^ (prec - 1) <= Z.abs (mant d) /\
    (g = 0 -> q = Z.abs (mant d)).
Proof.
  unfold fix_. set (a := Z.abs (mant d)).
  assert (Hsgn : Z.sgn (mant d) * a = mant d).
  { unfold a. lia. }
  destruct (Z.eqb_spec a 0) as [Ha0|Ha0].
  { exists a, 0. rewrite Hsgn, Z.add_0_r. destruct d; simpl in *.
    repeat split; try lia. }
  assert (Ha : 0 < a) by (unfold a in *; lia).
  destruct (ndigits_spec a Ha) as (Hn1 & Hlo & Hhi).
  set (n := ndigits a) in *.
  destruct (Z.ltb_spec (expo d) (n + expo d - prec)) as [Hr|Hr].
  2:{ exists a, 0. rewrite Hsgn, Z.add_0_r. destruct d; simpl in *.
      repeat split; try lia. }
  set (drop := n + expo d - prec - expo d).
  assert (Hdrop : 0 < drop) by (unfold drop; lia).
  destruct (round_half_even_spec a drop ltac:(lia) Hdrop) as (Hq & Herr).
  set (q0 := round_half_even a drop) in *.
  assert (Hp : 0 < 10 ^ drop) by (apply pow10_gt0; lia).
  assert (Hsplit : 10 ^ n = 10 ^ drop * 10 ^ prec).
  { rewrite <- Z.pow_add_r by (unfold prec; lia). f_equal. unfold drop. lia. }
  assert (Hsplit' : 10 ^ (n - 1) = 10 ^ drop * 10 ^ (prec - 1)).
  { rewrite <- Z.pow_add_r by (unfold prec; lia). f_equal. unfold drop. lia. }
  assert (Hdiv_hi : a / 10 ^ drop < 10 ^ prec).
  { apply Z.div_lt_upper_bound; lia. }
  assert (Hdiv_lo : 10 ^ (prec - 1) <= a / 10 ^ drop).
  { apply Z.div_le_lower_bound; lia. }
  assert (Hpp : 0 < 10 ^ (prec - 1)) by (apply pow10_gt0; unfold prec; lia).
  assert (Hq0 : 0 < q0) by lia.
  destruct (Z.ltb_spec prec (ndigits q0)) as [Hc|Hc].
  - destruct (ndigits_spec q0 Hq0) as (_ & Hlo0 & _).
    assert (Hge : 10 ^ prec <= q0).
    { eapply Z.le_trans; [|exact Hlo0]. apply Z.pow_le_mono_r; lia. }
    assert (Hq0eq : q0 = 10 ^ prec) by lia.
    assert (H10 : 10 ^ prec = 10 * 10 ^ (prec - 1)) by reflexivity.
    exists (10 ^ (prec - 1)), (drop + 1).
    assert (Hd1 : 10 ^ (drop + 1) = 10 * 10 ^ drop) by (apply pow10_succ; lia).
    repeat split; try lia.
    + f_equal; [|unfold drop; lia]. f_equal. rewrite Hq0eq, H10.
      rewrite Z.mul_comm, Z.div_mul by lia. reflexivity.
    + rewrite Hd1. replace (10 ^ (prec - 1) * (10 * 10 ^ drop)) with (q0 * 10 ^ drop) by (rewrite Hq0eq, H10; ring).
      fold a. nia.
  - exists q0, drop. repeat split; try lia.
    + f_equal. unfold drop. lia.
    + fold a. nia.
Qed.

Lemma fix_sgn d : Z.sgn (mant (fix_ d)) = Z.sgn (mant d).
Proof.
  destruct (fix_spec d) as (q & g & -> & _ & Hq & Hpos & _). simpl.
  destruct (Z.eq_dec (mant d) 0) as [H0|H0].
  - rewrite H0. reflexivity.
  - specialize (Hpos H0). rewrite Z.sgn_mul, (Z.sgn_pos q) by lia.
    rewrite Z.mul_1_r. apply Z.sgn_sgn.
Qed.

Lemma strip_zeros_spec n : forall c e c' e',
  strip_zeros n c e = (c', e') ->
  exists j, 0 <= j /\ e' = e + j /\ c = c' * 10 ^ j.
Proof.
  induction n as [|n IH]; intros c e c' e'; cbn [strip_zeros].
  - intros [= <- <-]. exists 0. repeat split; lia.
  - destruct (Z.eqb_spec (c mod 10) 0) as [H0|H0].
    + intros H. destruct (IH _ _ _ _ H) as (j & Hj & -> & Hc).
      exists (j + 1). repeat split; try lia.
      rewrite pow10_succ by lia.
      pose proof (Z.div_mod c 10 ltac:(lia)). lia.
    + intros [= <- <-]. exists 0. repeat split; lia.
Qed.

(** The integer quotient of [__truediv__] has more than [prec] digits. *)
Lemma div_quotient_large A B :
  0 < A -> 0 < B ->
  let shift := ndigits B - ndigits A + prec + 1 in
  let num := if 0 <=? shift then A * 10 ^ shift else A in
  let den := if 0 <=? shift then B else B * 10 ^ (- shift) in
  0 < den /\ 10 ^ prec * den <= num.
Proof.
  intros HA HB shift num den.
  destruct (ndigits_spec A HA) as (HnA & HloA & HhiA).
  destruct (ndigits_spec B HB) as (HnB & HloB & HhiB).
  set (na := ndigits A) in *. set (nb := ndigits B) in *.
  assert (Hprec : 0 < 10 ^ prec) by (apply pow10_gt0; unfold prec; lia).
  unfold num, den. destruct (Z.leb_spec 0 shift) as [Hs|Hs].
  - split; [lia|].
    assert (H1 : 10 ^ (na - 1) * 10 ^ shift = 10 ^ prec * 10 ^ nb).
    { rewrite <- !Z.pow_add_r by (unfold prec; lia). f_equal. unfold shift. lia. }
    assert (0 < 10 ^ shift) by (apply pow10_gt0; lia).
    nia.
  - assert (Hp : 0 < 10 ^ (- shift)) by (apply pow10_gt0; lia).
    split; [nia|].
    assert (H1 : 10 ^ prec * (10 ^ nb * 10 ^ (- shift)) = 10 ^ (na - 1)).
    { rewrite <- !Z.pow_add_r by (unfold prec; lia). f_equal. unfold shift. unfold prec. lia. }
    nia.
Qed.

(** Values *)
Local Open Scope Q_scope.

Lemma p10_pos e : 0 < p10 e.
Proof. apply Qpower_0_lt. reflexivity. Qed.

Lemma p10_add a b : p10 (a + b) == p10 a * p10 b.
Proof. apply Qpower_plus. discriminate. Qed.

Lemma p10_Z n : (0 <= n)%Z -> inject_Z (10 ^ n) == p10 n.
Proof. apply Zpower_Qpower. Qed.

Lemma value_eq m e : value (mk m e) = inject_Z m * p10 e.
Proof. reflexivity. Qed.

Lemma value_shift m e g : (0 <= g)%Z ->
  value (mk m (e + g)) == inject_Z (m * 10 ^ g) * p10 e.
Proof.
  intros Hg. rewrite value_eq, p10_add, inject_Z_mult, p10_Z by assumption. ring.
Qed.

Lemma Qabs_inject_Z z : Qabs (inject_Z z) = inject_Z (Z.abs z).
Proof. reflexivity. Qed.

Lemma Qabs_scaled z e : Qabs (inject_Z z * p10 e) == inject_Z (Z.abs z) * p10 e.
Proof.
  rewrite Qabs_Qmult, Qabs_inject_Z, (Qabs_pos (p10 e)); [reflexivity|].
  apply Qlt_le_weak, p10_pos.
Qed.

Lemma fix_value d :
  Qabs (value (fix_ d) - value d) <= ulp_half * Qabs (value d).
Proof.
  destruct (fix_spec d) as (q & g & -> & Hg & Hq & _ & Herr & _).
  destruct d as [m e]; simpl mant in *; simpl expo in *.
  rewrite value_shift by assumption. rewrite value_eq.
  assert (Heq : inject_Z (Z.sgn m * q * 10 ^ g) * p10 e - inject_Z m * p10 e
                == inject_Z (Z.sgn m * (q * 10 ^ g - Z.abs m)) * p10 e).
  { replace (Z.sgn m * (q * 10 ^ g - Z.abs m))%Z with (Z.sgn m * q * 10 ^ g - m)%Z by lia.
    unfold Zminus. rewrite inject_Z_plus, inject_Z_opp. ring. }
  rewrite Heq, !Qabs_scaled.
  set (z := Z.abs (Z.sgn m * (q * 10 ^ g - Z.abs m))).
  assert (Hz : (2 * z * 10 ^ (prec - 1) <= Z.abs m)%Z).
  { unfold z. rewrite Z.abs_mul. destruct (Z.eq_dec m 0%Z) as [->|Hm]; [simpl; lia|].
    replace (Z.abs (Z.sgn m)) with 1%Z by lia. lia. }
  rewrite Zle_Qle in Hz. rewrite !inject_Z_mult in Hz.
  change (inject_Z (10 ^ (prec - 1))) with (1000000000000000000000000000 # 1) in Hz.
  change (inject_Z 2) with (2 # 1) in Hz.
  pose proof (p10_pos e) as HP.
  assert (H : inject_Z z <= ulp_half * inject_Z (Z.abs m)) by (unfold ulp_half; lra).
  rewrite Qmult_assoc. apply Qmult_le_compat_r; [exact H | lra].
Qed.

Lemma value_neg a : value (neg a) == - value a.
Proof. destruct a as [m e]. unfold neg, value; simpl. rewrite inject_Z_opp. ring. Qed.

Lemma value_align a e : (e <= expo a)%Z ->
  value a == inject_Z (mant a * 10 ^ (expo a - e)) * p10 e.
Proof.
  intros He. destruct a as [m ea]; simpl in *.
  rewrite <- value_shift by lia. replace (e + (ea - e))%Z with ea by lia. reflexivity.
Qed.

Lemma scaled_compare x y e :
  (inject_Z x * p10 e ?= inject_Z y * p10 e) = (x ?= y)%Z.
Proof.
  pose proof (p10_pos e) as HP.
  destruct (Z.compare_spec x y) as [H|H|H].
  - subst. apply Qeq_alt. reflexivity.
  - apply Qlt_alt. apply Qmult_lt_r; [assumption|]. now rewrite <- Zlt_Qlt.
  - apply Qgt_alt. apply Qmult_lt_r; [assumption|]. now rewrite <- Zlt_Qlt.
Qed.

Lemma cmp_spec a b : cmp a b = (value a ?= value b).
Proof.
  unfold cmp. set (e := Z.min (expo a) (expo b)).
  rewrite (value_align a e), (value_align b e) by (unfold e; lia).
  symmetry. apply scaled_compare.
Qed.

Lemma add_exact a b :
  let e := Z.min (expo a) (expo b) in
  value (mk (mant a * 10 ^ (expo a - e) + mant b * 10 ^ (expo b - e)) e)
  == value a + value b.
Proof.
  intros e. rewrite (value_align a e), (value_align b e) by (unfold e; lia).
  rewrite value_eq, inject_Z_plus. ring.
Qed.

Lemma add_value a b :
  Qabs (value (add a b) - (value a + value b)) <= ulp_half * Qabs (value a + value b).
Proof. unfold add. rewrite <- add_exact. apply fix_value. Qed.

Lemma sub_value a b :
  Qabs (value (sub a b) - (value a - value b)) <= ulp_half * Qabs (value a - value b).
Proof.
  unfold sub. pose proof (add_value a (neg b)) as H. rewrite value_neg in H. exact H.
Qed.

Lemma mul_exact a b : value (mk (mant a * mant b) (expo a + expo b)) == value a * value b.
Proof.
  destruct a as [ma ea], b as [mb eb]. unfold value; simpl.
  fold (p10 (ea + eb)) (p10 ea) (p10 eb). rewrite p10_add, inject_Z_mult. ring.
Qed.

Lemma mul_value a b :
  Qabs (value (mul a b) - value a * value b) <= ulp_half * Qabs (value a * value b).
Proof. unfold mul. rewrite <- mul_exact. apply fix_value. Qed.

Ltac abs_cases :=
  repeat match goal with H : context [Qabs _] |- _ => revert H end;
  repeat match goal with
         | |- context [Qabs ?x] => pattern (Qabs x); apply Qabs_case; intro
         end;
  intros.

Lemma rel_err_scale f x s r :
  Qabs (f - x) <= r * Qabs x -> Qabs (f * s - x * s) <= r * Qabs (x * s).
Proof.
  intros H.
  assert (E : f * s - x * s == (f - x) * s) by ring.
  rewrite E, !Qabs_Qmult, Qmult_assoc.
  apply Qmult_le_compat_r; [exact H | apply Qabs_nonneg].
Qed.

Lemma rel_err_compose f t v :
  Qabs (f - t) <= ulp_half * Qabs t ->
  Qabs (t - v) <= (1 # 10000000000000000000000000000) * Qabs v ->
  Qabs (f - v) <= ulp_div * Qabs v.
Proof. unfold ulp_half, ulp_div. intros H1 H2. abs_cases; lra. Qed.

Lemma value_zero e : value (mk 0 e) == 0.
Proof. unfold value; simpl. ring. Qed.

Lemma div_value a b :
  mant b <> 0%Z ->
  exists c, div a b = Ok c /\
            Qabs (value c * value b - value a) <= ulp_div * Qabs (value a).
Proof.
  intros Hb. unfold div. rewrite (proj2 (Z.eqb_neq _ _) Hb).
  destruct (Z.eqb_spec (mant a) 0) as [Ha|Ha].
  { eexists; split; [reflexivity|].
    destruct a as [ma ea]; simpl mant in *; simpl expo in *; subst ma.
    change (fix_ (mk 0 (ea - expo b))) with (mk 0 (ea - expo b)).
    rewrite !value_zero. unfold ulp_div. abs_cases; lra. }
  destruct a as [ma ea], b as [mb eb]; simpl mant in *; simpl expo in *.
  rewrite <- (ndigits_abs ma), <- (ndigits_abs mb).
  destruct (div_quotient_large (Z.abs ma) (Z.abs mb) ltac:(lia) ltac:(lia)) as (Hden & Hlarge).
  set (A := Z.abs ma) in *. set (B := Z.abs mb) in *.
  set (shift := (ndigits B - ndigits A + prec + 1)%Z) in *.
  set (exp := (ea - eb - shift)%Z).
  set (num := if (0 <=? shift)%Z then (A * 10 ^ shift)%Z else A) in *.
  set (den := if (0 <=? shift)%Z then B else (B * 10 ^ (- shift))%Z) in *.
  set (sign := (Z.sgn ma * Z.sgn mb)%Z).
  pose proof (Z.div_mod num den ltac:(lia)) as Hdm.
  pose proof (Z.mod_pos_bound num den Hden) as Hmod.
  set (c := (num / den)%Z) in *. set (rm := (num mod den)%Z) in *.
  (* the coefficient that is handed to the rounding *)
  assert (Hpre : exists pre c2,
    (if (rm =? 0)%Z
     then strip_zeros (Z.to_nat (ea - eb - exp)) c exp
     else (if (c mod 5 =? 0)%Z then (c + 1)%Z else c, exp)) = (mant pre, expo pre)
    /\ value (mk (sign * mant pre) (expo pre)) == inject_Z (sign * c2) * p10 exp
    /\ (10 ^ prec * Z.abs (c2 * den - num) <= num)%Z).
  { destruct (Z.eqb_spec rm 0) as [Hr|Hr].
    - destruct (strip_zeros (Z.to_nat (ea - eb - exp)) c exp) as [c' e'] eqn:Hs.
      exists (mk c' e'), c. split; [reflexivity|].
      destruct (strip_zeros_spec _ _ _ _ _ Hs) as (j & Hj & -> & Hc).
      simpl. split.
      + rewrite value_shift by assumption. rewrite Hc.
        replace (sign * c' * 10 ^ j)%Z with (sign * (c' * 10 ^ j))%Z by ring. reflexivity.
      + replace (c * den - num)%Z with 0%Z by lia. simpl. lia.
    - exists (mk (if (c mod 5 =? 0)%Z then (c + 1)%Z else c) exp),
             (if (c mod 5 =? 0)%Z then (c + 1)%Z else c).
      split; [reflexivity|]. simpl. split; [reflexivity|].
      assert (Hp : (0 < 10 ^ prec)%Z) by (apply pow10_gt0; unfold prec; lia).
      destruct (c mod 5 =? 0)%Z; nia. }
  destruct Hpre as (pre & c2 & -> & Hval & Hc2).
  eexists; split; [reflexivity|].
  set (P := mk (sign * mant pre) (expo pre)) in *.
  apply (rel_err_compose _ (value P * value (mk mb eb))).
  { apply rel_err_scale. apply fix_value. }
  (* the quotient before rounding *)
  assert (Hscale : exists S, 0 < S /\
     value P * value (mk mb eb) == inject_Z (Z.sgn ma * (c2 * den)) * S /\
     value (mk ma ea) == inject_Z (Z.sgn ma * num) * S).
  { assert (Hsb : (sign * mb = Z.sgn ma * B)%Z) by (unfold sign, B; lia).
    assert (HsA : (ma = Z.sgn ma * A)%Z) by (unfold A; lia).
    unfold num, den. destruct (Z.leb_spec 0 shift) as [Hs|Hs].
    - exists (p10 exp * p10 eb). split.
      { pose proof (p10_pos exp); pose proof (p10_pos eb). nra. }
      split.
      + rewrite Hval, value_eq.
        replace (Z.sgn ma * (c2 * B))%Z with (sign * c2 * mb)%Z by lia.
        rewrite !inject_Z_mult. ring.
      + replace ea with (exp + eb + shift)%Z by (unfold exp; lia).
        rewrite value_eq, !p10_add, <- (p10_Z shift Hs).
        rewrite HsA at 1. rewrite !inject_Z_mult. ring.
    - exists (p10 ea). split; [apply p10_pos|]. split.
      + rewrite Hval, value_eq.
        assert (E : p10 exp * p10 eb == p10 ea * inject_Z (10 ^ (- shift))).
        { rewrite p10_Z by lia. rewrite <- !p10_add. unfold exp.
          replace (ea - eb - shift + eb)%Z with (ea + - shift)%Z by lia. reflexivity. }
        replace (Z.sgn ma * (c2 * (B * 10 ^ (- shift))))%Z
          with (sign * c2 * mb * 10 ^ (- shift))%Z by lia.
        rewrite !inject_Z_mult.
        transitivity (inject_Z sign * inject_Z c2 * inject_Z mb * (p10 exp * p10 eb)); [ring|].
        rewrite E. ring.
      + rewrite value_eq. rewrite HsA at 1. reflexivity. }
  destruct Hscale as (S & HS & -> & ->).
  assert (E : inject_Z (Z.sgn ma * (c2 * den)) * S - inject_Z (Z.sgn ma * num) * S
              == inject_Z (Z.sgn ma * (c2 * den - num)) * S).
  { replace (Z.sgn ma * (c2 * den - num))%Z
      with (Z.sgn ma * (c2 * den) + - (Z.sgn ma * num))%Z by ring.
    rewrite inject_Z_plus, inject_Z_opp. ring. }
  rewrite E, !Qabs_Qmult, !Qabs_inject_Z, (Qabs_pos S) by lra.
  rewrite Qmult_assoc. apply Qmult_le_compat_r; [|lra].
  rewrite !Z.abs_mul. replace (Z.abs (Z.sgn ma)) with 1%Z by lia.
  rewrite !Z.mul_1_l. rewrite (Z.abs_eq num) by nia.
  rewrite Zle_Qle in Hc2. rewrite inject_Z_mult in Hc2.
  change (inject_Z (10 ^ prec)) with (10000000000000000000000000000 # 1) in Hc2.
  lra.
Qed.

End DecimalFacts.

(** ** The Temperature class *)

Module UnitsFacts.

Import Units DecimalFacts.

Lemma get_k_insert (self : loc) d (h : heap) :
  (self < length h)%nat ->
  get_k self (<[self := Instance (Some d)]> h) = (<[self := Instance (Some d)]> h, Ok d).
Proof.
  intros Hl. unfold get_k. rewrite list_lookup_insert_eq by assumption. reflexivity.
Qed.

Lemma setattr_rec_unfold depth (self : loc) nm v :
  setattr_rec (S depth) self nm v =
  (dvalue <- lift (Decimal_of v) ;;
   match equations nm with
   | Some eq =>
       kv <- lift (to_kelvin eq dvalue) ;;
       setattr_rec depth self K (VDecimal kv)
   | None => object_setattr self dvalue
   end ;;;
   kv <- get_k self ;;
   if Decimal.ltb kv (Decimal.of_int 0) then
     setattr_rec depth self K (VInt 0) ;;;
     raise ValueError
   else ret tt).
Proof. reflexivity. Qed.

Lemma setattr_rec_zero n (self : loc) (h : heap) :
  (self < length h)%nat ->
  setattr_rec (S n) self K (VInt 0) h = (<[self := Instance (Some zero)]> h, Ok tt).
Proof.
  intros Hl. rewrite setattr_rec_unfold. cbn [equations Decimal_of].
  unfold bind, lift, object_setattr.
  rewrite get_k_insert by assumption. reflexivity.
Qed.

Lemma setattr_rec_K n (self : loc) v (h : heap) :
  (self < length h)%nat ->
  setattr_rec (S (S n)) self K v h =
  match Decimal_of v with
  | Raise e => (h, Raise e)
  | Ok d => guarded_store self d h
  end.
Proof.
  intros Hl. rewrite setattr_rec_unfold. cbn [equations].
  unfold bind at 1 2 3. unfold lift.
  destruct (Decimal_of v) as [d|e]; [|reflexivity].
  unfold object_setattr. unfold bind at 1. rewrite get_k_insert by assumption.
  unfold guarded_store. fold zero. destruct (Decimal.ltb d zero); [|reflexivity].
  unfold bind.
  rewrite (setattr_rec_zero n) by (rewrite length_insert; assumption).
  rewrite list_insert_insert_eq. reflexivity.
Qed.

Lemma setattr_rec_spec n (self : loc) nm v (h : heap) :
  (self < length h)%nat ->
  setattr_rec (S (S (S n))) self nm v h =
  match written nm v with
  | Raise e => (h, Raise e)
  | Ok d => guarded_store self d h
  end.
Proof.
  intros Hl. destruct (equations nm) as [eq|] eqn:Heq.
  - rewrite setattr_rec_unfold. rewrite Heq. unfold written. rewrite Heq.
    unfold bind at 1 2 3. unfold lift at 1.
    destruct (Decimal_of v) as [d|e]; [|reflexivity].
    unfold bind at 1. unfold lift.
    destruct (to_kelvin eq d) as [kv|e]; [|reflexivity].
    rewrite (setattr_rec_K n) by assumption. cbn [Decimal_of].
    unfold guarded_store. fold zero.
    destruct (Decimal.ltb kv zero) eqn:E; [reflexivity|].
    unfold bind. rewrite get_k_insert by assumption. fold zero. rewrite E. reflexivity.
  - destruct nm; try discriminate. unfold written. cbn [equations].
    rewrite (setattr_rec_K (S n)) by assumption. destruct (Decimal_of v); reflexivity.
Qed.

Lemma setattr_spec (self : loc) nm v (h : heap) :
  (self < length h)%nat ->
  __setattr__ self nm v h =
  match written nm v with
  | Raise e => (h, Raise e)
  | Ok d => guarded_store self d h
  end.
Proof. apply (setattr_rec_spec 0). Qed.

(** Any larger depth gives the same result: three frames are all the
    method needs. *)
Lemma setattr_rec_depth n (self : loc) nm v (h : heap) :
  (self < length h)%nat -> (3 <= n)%nat ->
  setattr_rec n self nm v h = __setattr__ self nm v h.
Proof.
  intros Hl Hn. destruct n as [|[|[|n]]]; try lia.
  rewrite setattr_rec_spec, setattr_spec by assumption. reflexivity.
Qed.

(** *** Comparisons of decimals *)

Lemma value_zero_Q : (Decimal.value zero == 0)%Q.
Proof. reflexivity. Qed.

Lemma value_of_int n : (Decimal.value (Decimal.of_int n) == inject_Z n)%Q.
Proof. unfold Decimal.value, Decimal.of_int; simpl. ring. Qed.

Lemma ltb_spec a b : Decimal.ltb a b = true <-> (Decimal.value a < Decimal.value b)%Q.
Proof.
  unfold Decimal.ltb. rewrite cmp_spec, Qlt_alt.
  destruct (Decimal.value a ?= Decimal.value b)%Q; split; congruence.
Qed.

Lemma ltb_false a b : Decimal.ltb a b = false <-> (Decimal.value b <= Decimal.value a)%Q.
Proof.
  rewrite <- not_true_iff_false, ltb_spec. split.
  - apply Qnot_lt_le.
  - apply Qle_not_lt.
Qed.


Lemma ltb_zero_false d : Decimal.ltb d zero = false <-> (0 <= Decimal.value d)%Q.
Proof. rewrite ltb_false, value_zero_Q. reflexivity. Qed.

(** *** Heaps *)




Lemma insert_snoc (h : heap) (i j : instance) :
  <[length h := j]> (h ++ [i]) = h ++ [j].
Proof.
  replace (length h) with (length h + 0)%nat by lia. rewrite insert_app_r. reflexivity.
Qed.

Lemma guarded_store_snoc (h : heap) i d :
  guarded_store (length h) d (h ++ [i]) =
  if Decimal.ltb d zero then (h ++ [Instance (Some zero)], Raise ValueError)
  else (h ++ [Instance (Some d)], Ok tt).
Proof. unfold guarded_store. rewrite !insert_snoc. reflexivity. Qed.

(** *** Construction *)

Lemma init_kwargs_spec (self : loc) kwargs :
  init_kwargs self kwargs =
  match first_unit kwargs with
  | Some (nm, v) => __setattr__ self nm v
  | None => ret tt
  end.
Proof.
  induction kwargs as [|[key v] rest IH]; [reflexivity|].
  cbn [init_kwargs first_unit]. destruct (unit_of_key key); [reflexivity|exact IH].
Qed.

Lemma Temperature_spec k0 kwargs (h : heap) :
  Temperature k0 kwargs h = constructed k0 kwargs h.
Proof.
  unfold Temperature, constructed, alloc, __init__. unfold bind at 1 2 3.
  assert (Hl : (length h < length (h ++ [Instance None]))%nat).
  { rewrite length_app; simpl; lia. }
  rewrite setattr_spec by assumption.
  destruct (written K k0) as [d0|e]; [|reflexivity].
  rewrite guarded_store_snoc.
  destruct (Decimal.ltb d0 zero); [reflexivity|].
  rewrite init_kwargs_spec. destruct (first_unit kwargs) as [[nm v]|]; [|reflexivity].
  assert (Hl' : (length h < length (h ++ [Instance (Some d0)]))%nat).
  { rewrite length_app; simpl; lia. }
  rewrite setattr_spec by assumption.
  destruct (written nm v) as [d|e]; [|reflexivity].
  rewrite guarded_store_snoc.
  destruct (Decimal.ltb d zero); reflexivity.
Qed.

(** *** Operators *)

Lemma kelvin_spec other (h : heap) : kelvin other h = (h, Ok (operand h other)).
Proof.
  unfold kelvin, operand. destruct other as [| | | |l]; try reflexivity.
  destruct (h !! l) as [[[d|]]|]; reflexivity.
Qed.

Lemma get_k_Some (self : loc) (h : heap) d :
  h !! self = Some (Instance (Some d)) -> get_k self h = (h, Ok d).
Proof. intros H. unfold get_k. rewrite H. reflexivity. Qed.


Lemma written_Decimal d : written K (VDecimal d) = Ok d.
Proof. reflexivity. Qed.

Lemma binary_method_spec op (self : loc) other (h : heap) kv :
  h !! self = Some (Instance (Some kv)) ->
  binary_method op self other h =
  match arith op kv (operand h other) with
  | Raise e => (h, Raise e)
  | Ok d => constructed (VDecimal d) [] h
  end.
Proof.
  intros Hk. unfold binary_method. unfold bind at 1. rewrite kelvin_spec.
  unfold bind at 1. rewrite (get_k_Some _ _ _ Hk).
  unfold bind at 1. unfold lift.
  destruct (arith op kv (operand h other)) as [d|e]; [|reflexivity].
  apply Temperature_spec.
Qed.

Lemma inplace_method_spec op (self : loc) other (h : heap) kv :
  h !! self = Some (Instance (Some kv)) ->
  inplace_method op self other h =
  match arith op kv (operand h other) with
  | Raise e => (h, Raise e)
  | Ok d =>
      if Decimal.ltb d zero
      then (<[self := Instance (Some zero)]> h, Raise ValueError)
      else (<[self := Instance (Some d)]> h, Ok self)
  end.
Proof.
  intros Hk. unfold inplace_method. unfold bind at 1. rewrite kelvin_spec.
  unfold bind at 1. rewrite (get_k_Some _ _ _ Hk).
  unfold bind at 1. unfold lift.
  destruct (arith op kv (operand h other)) as [d|e]; [|reflexivity].
  unfold bind. rewrite setattr_spec by (eapply lookup_lt_Some, Hk).
  rewrite written_Decimal. unfold guarded_store.
  destruct (Decimal.ltb d zero); reflexivity.
Qed.

(** *** The guard against negative Kelvin values *)






Lemma lookup_snoc_new (h : heap) (i : instance) : (h ++ [i]) !! length h = Some i.
Proof. apply list_lookup_middle. reflexivity. Qed.









(** *** Subtraction below zero *)




(** *** Exact conversions *)

Lemma lowest_terms_spec steps : forall n kk n' k',
  0 <= kk -> Z.of_nat steps <= kk ->
  Decimal.lowest_terms steps n kk = (n', k') ->
  0 <= k' <= kk /\ n = n' * 2 ^ (kk - k').
Proof.
  induction steps as [|steps IH]; intros n kk n' k' Hk Hs; cbn [Decimal.lowest_terms].
  - intros [= <- <-]. rewrite Z.sub_diag. simpl. lia.
  - destruct (Z.even n) eqn:Ev.
    + intros H. apply IH in H; [|lia|lia]. destruct H as [Hk' Hn].
      split; [lia|].
      replace (kk - k') with ((kk - 1 - k') + 1) by lia.
      rewrite Z.pow_add_r by lia. change (2 ^ 1) with 2.
      apply Z.even_spec in Ev as [j ->].
      rewrite Z.mul_comm, Z.div_mul in Hn by lia. lia.
    + intros [= <- <-]. rewrite Z.sub_diag. simpl. lia.
Qed.

Lemma from_float_value m e :
  (Decimal.value (Decimal.from_float m e) == inject_Z m * inject_Z 2 ^ e)%Q.
Proof.
  unfold Decimal.from_float. destruct (Z.leb_spec 0 e) as [He|He].
  - unfold Decimal.value; simpl.
    rewrite inject_Z_mult, Zpower_Qpower by assumption. ring.
  - destruct (Decimal.lowest_terms (Z.to_nat (- e)) m (- e)) as [n kk] eqn:Hl.
    apply lowest_terms_spec in Hl as [Hk Hm]; [|lia|rewrite Z2Nat.id; lia].
    rewrite value_eq.
    assert (H10 : (inject_Z (10 ^ kk) * Decimal.p10 (- kk) == 1)%Q).
    { rewrite p10_Z by lia. rewrite <- p10_add. replace (kk + - kk) with 0 by lia. reflexivity. }
    assert (H2 : (inject_Z (2 ^ (- e)) * inject_Z 2 ^ e == 1)%Q).
    { rewrite Zpower_Qpower by lia. rewrite <- Qpower_plus by discriminate.
      replace (- e + e) with 0 by lia. reflexivity. }
    assert (Hsplit : (inject_Z (10 ^ kk) == inject_Z (2 ^ kk) * inject_Z (5 ^ kk))%Q).
    { rewrite <- inject_Z_mult. rewrite <- Z.pow_mul_l. reflexivity. }
    assert (H2k : (inject_Z (2 ^ (- e)) == inject_Z (2 ^ (- e - kk)) * inject_Z (2 ^ kk))%Q).
    { rewrite <- inject_Z_mult, <- Z.pow_add_r by lia.
      replace (- e - kk + kk) with (- e) by lia. reflexivity. }
    rewrite Hm, !inject_Z_mult.
    set (P := Decimal.p10 (- kk)) in *. set (T := (inject_Z 2 ^ e)%Q) in *.
    set (a := inject_Z (2 ^ (- e - kk))) in *. set (b := inject_Z (2 ^ kk)) in *.
    set (c := inject_Z (5 ^ kk)) in *. set (x := inject_Z n).
    rewrite Hsplit in H10. rewrite H2k in H2.
    transitivity (x * c * P * (a * b * T))%Q; [rewrite H2; ring|].
    transitivity (x * a * T * (b * c * P))%Q; [ring|rewrite H10; ring].
Qed.

Lemma Decimal_of_exact v d q :
  Decimal_of v = Ok d -> number v = Some q -> (Decimal.value d == q)%Q.
Proof.
  destruct v as [|n|m e|d'|l]; simpl; intros [= <-] [= <-].
  - apply value_of_int.
  - apply from_float_value.
  - reflexivity.
Qed.

Lemma convert_other_exact v q :
  number v = Some q ->
  exists d, convert_other true v = Some d /\ (Decimal.value d == q)%Q.
Proof.
  destruct v as [|n|m e|d'|l]; simpl; intros [= <-].
  - eexists; split; [reflexivity | apply value_of_int].
  - eexists; split; [reflexivity | apply from_float_value].
  - eexists; split; reflexivity.
Qed.

(** *** Comparisons *)

Lemma comparison_method_spec test (self : loc) x (h : heap) dk q :
  h !! self = Some (Instance (Some dk)) ->
  kelvin_value h x = Some q ->
  comparison_method test self x h = (h, Ok (test (Decimal.value dk ?= q)%Q)).
Proof.
  intros Hk Hq. unfold comparison_method. unfold bind at 1. rewrite kelvin_spec.
  unfold bind at 1. rewrite (get_k_Some _ _ _ Hk). unfold lift.
  assert (Hn : number (operand h x) = Some q).
  { destruct x as [|n|m e|d'|l]; try exact Hq. unfold operand, kelvin_value in *.
    destruct (h !! l) as [[[d|]]|]; try discriminate. exact Hq. }
  destruct (convert_other_exact _ _ Hn) as (d & Hc & Hv).
  unfold compare_with. rewrite Hc, cmp_spec, Hv. reflexivity.
Qed.

(** C7.  Each of the six comparison operators of a Temperature compares
    Kelvin values: with [q] the number the right operand stands for (the [k]
    of another Temperature, the value of a bare number) the result is the
    comparison of [self.k] with [q]. *)
Theorem comparisons_by_kelvin (h : heap) (self : loc) x dk q :
  h !! self = Some (Instance (Some dk)) ->
  kelvin_value h x = Some q ->
  let c := (Decimal.value dk ?= q)%Q in
  __lt__ self x h = (h, Ok match c with Lt => true | _ => false end) /\
  __le__ self x h = (h, Ok match c with Gt => false | _ => true end) /\
  __gt__ self x h = (h, Ok match c with Gt => true | _ => false end) /\
  __ge__ self x h = (h, Ok match c with Lt => false | _ => true end) /\
  __eq__ self x h = (h, Ok match c with Eq => true | _ => false end) /\
  __ne__ self x h = (h, Ok match c with Eq => false | _ => true end).
Proof.
  intros Hk Hq c. unfold __lt__, __le__, __gt__, __ge__, __eq__, __ne__.
  rewrite !(fun test => comparison_method_spec test _ _ _ _ _ Hk Hq).
  repeat split; reflexivity.
Qed.

(** An instance: [Temperature(f=212)] against the float [373.5]. *)
Lemma comparisons_by_kelvin_witness :
  let h := [Instance (Some (Decimal.mk 37315 (-2)))] in
  __lt__ 0%nat (VFloat 747 (-1)) h = (h, Ok true) /\
  __ge__ 0%nat (VFloat 747 (-1)) h = (h, Ok false).
Proof.
  intros h.
  destruct (comparisons_by_kelvin h 0%nat (VFloat 747 (-1)) (Decimal.mk 37315 (-2))
              (inject_Z 747 * inject_Z 2 ^ (-1))%Q) as (H1 & _ & _ & H4 & _);
    [reflexivity | reflexivity |].
  split; [exact H1 | exact H4].
Defined.

(** *** Construction *)

Lemma first_unit_app before key nm v after :
  Forall (fun kv : string * value => unit_of_key kv.1 = None) before ->
  unit_of_key key = Some nm ->
  first_unit (before ++ (key, v) :: after) = Some (nm, v).
Proof.
  intros Hb Hk. induction Hb as [|[key' v'] rest Hnone _ IH]; cbn [app first_unit].
  - rewrite Hk. reflexivity.
  - simpl in Hnone. rewrite Hnone. exact IH.
Qed.

(** C8.  [Temperature()] has [k = 0].  [Temperature(c=v)], and likewise with
    [f] or [r], computes the Kelvin value that inverts the unit's transform
    on [v], [(v - eq[2]) / eq[0] - eq[1]], and has it as its [k] (the guard
    raising when it is negative).  Among several keywords the first unit
    keyword that the iteration meets decides alone: the construction is that
    of this keyword by itself. *)
Theorem construction_by_keyword (h : heap) :
  Temperature k_default [] h = (h ++ [Instance (Some zero)], Ok (length h)) /\
  (forall key nm eq v dv d,
     unit_of_key key = Some nm -> equations nm = Some eq ->
     Decimal_of v = Ok dv -> to_kelvin eq dv = Ok d ->
     Temperature k_default [(key, v)] h =
     if Decimal.ltb d zero then (h ++ [Instance (Some zero)], Raise ValueError)
     else (h ++ [Instance (Some d)], Ok (length h))) /\
  (forall k0 before key nm v after,
     Forall (fun kv : string * value => unit_of_key kv.1 = None) before ->
     unit_of_key key = Some nm ->
     Temperature k0 (before ++ (key, v) :: after) h = Temperature k0 [(key, v)] h).
Proof.
  split; [|split].
  - rewrite Temperature_spec. reflexivity.
  - intros key nm eq v dv d Hkey Heq Hdv Hd.
    rewrite Temperature_spec. unfold constructed.
    change (written K k_default) with (@Ok Decimal zero).
    change (Decimal.ltb zero zero) with false. cbn [first_unit]. rewrite Hkey.
    unfold written. rewrite Hdv, Heq, Hd. reflexivity.
  - intros k0 before key nm v after Hb Hkey.
    rewrite !Temperature_spec. unfold constructed.
    rewrite (first_unit_app _ _ _ _ _ Hb Hkey). cbn [first_unit]. rewrite Hkey.
    reflexivity.
Qed.

(** An instance: [Temperature(x=3, r=18, c=5)] is [Temperature(r=18)], 10 K. *)
Lemma construction_by_keyword_witness :
  Temperature k_default [("r"%string, VInt 18)] [] =
    ([Instance (Some (Decimal.mk 100 (-1)))], Ok 0%nat) /\
  Temperature k_default [("x"%string, VInt 3); ("r"%string, VInt 18); ("c"%string, VInt 5)] [] =
    Temperature k_default [("r"%string, VInt 18)] [].
Proof.
  destruct (construction_by_keyword []) as (_ & H2 & H3). split.
  - apply (H2 "r"%string R (Decimal.mk 18 (-1), Decimal.mk 0 (-1), Decimal.mk 0 (-1))
              (VInt 18) (Decimal.of_int 18) (Decimal.mk 100 (-1))); reflexivity.
  - apply (H3 k_default [("x"%string, VInt 3)] "r"%string R (VInt 18) [("c"%string, VInt 5)]).
    + repeat constructor.
    + reflexivity.
Defined.

(** *** Decimal coercion *)

(** C10.  An attribute write first turns the value it is given into a
    Decimal.  When the conversion fails the write fails with its error and
    stores nothing.  When the write returns, the value converted to a decimal
    [dv] that stands for exactly the same number, and the stored [k] is that
    decimal, or for a unit the decimal computed from it by Decimal
    arithmetic. *)
Theorem attribute_write_coerces (h : heap) (self : loc) nm v :
  (self < length h)%nat ->
  (forall e, Decimal_of v = Raise e -> __setattr__ self nm v h = (h, Raise e)) /\
  (forall h', __setattr__ self nm v h = (h', Ok tt) ->
     exists dv d,
       Decimal_of v = Ok dv /\
       (forall q, number v = Some q -> (Decimal.value dv == q)%Q) /\
       match equations nm with
       | Some eq => to_kelvin eq dv = Ok d
       | None => d = dv
       end /\
       h' = <[self := Instance (Some d)]> h).
Proof.
  intros Hl. rewrite setattr_spec by assumption. unfold written. split.
  - intros e ->. reflexivity.
  - intros h'. destruct (Decimal_of v) as [dv|e] eqn:Hdv; [|discriminate].
    assert (Hex : forall q, number v = Some q -> (Decimal.value dv == q)%Q).
    { intros q. now apply Decimal_of_exact. }
    destruct (equations nm) as [eq|].
    + destruct (to_kelvin eq dv) as [d|e] eqn:Hd; [|discriminate].
      unfold guarded_store. destruct (Decimal.ltb d zero); [discriminate|].
      intros [= <-]. exists dv, d. repeat split; solve [assumption | reflexivity].
    + unfold guarded_store. destruct (Decimal.ltb dv zero); [discriminate|].
      intros [= <-]. exists dv, dv. repeat split; solve [assumption | reflexivity].
Qed.

(** An instance: writing [None] fails, writing the float [0.5] stores 0.5. *)
Lemma attribute_write_coerces_witness :
  let h := [Instance (Some zero)] in
  __setattr__ 0%nat K VNone h = (h, Raise TypeError) /\
  exists dv d, Decimal_of (VFloat 1 (-1)) = Ok dv /\ d = dv /\
               [Instance (Some (Decimal.mk 5 (-1)))] = <[0%nat := Instance (Some d)]> h.
Proof.
  intros h. split.
  - apply (attribute_write_coerces h 0%nat K VNone); [simpl; lia | reflexivity].
  - destruct (attribute_write_coerces h 0%nat K (VFloat 1 (-1))) as [_ H]; [simpl; lia|].
    destruct (H [Instance (Some (Decimal.mk 5 (-1)))]) as (dv & d & H1 & _ & H3 & H4);
      [reflexivity|].
    exists dv, d. repeat split; assumption.
Defined.

(** *** The scenario of the class documentation *)

(** C6.  With [t1 = Temperature(k=40)] and [t2 = Temperature(f=212)], [t2]
    has [k = 373.15]; [t2 - t1] is a new Temperature with [k = 333.15];
    [t1 - t2] raises [ValueError]. *)
Theorem subtraction_scenario :
  let build := (t1 <- Temperature (VInt 40) [] ;;
                t2 <- Temperature k_default [("f"%string, VInt 212)] ;;
                ret (t1, t2)) in
  let h := [Instance (Some (Decimal.mk 40 0)); Instance (Some (Decimal.mk 37315 (-2)))] in
  build [] = (h, Ok (0%nat, 1%nat)) /\
  __sub__ 1%nat (VRef 0%nat) h = (h ++ [Instance (Some (Decimal.mk 33315 (-2)))], Ok 2%nat) /\
  __sub__ 0%nat (VRef 1%nat) h = (h ++ [Instance (Some zero)], Raise ValueError).
Proof. repeat split; vm_compute; reflexivity. Qed.

(** *** Round trip through a unit *)

Section RoundTrip.

Local Open Scope Q_scope.

(** One rounding, with the magnitude of its exact argument bounded. *)
Lemma rounding_within xh x r B :
  Qabs (xh - x) <= r * Qabs x -> 0 <= r -> - B <= x <= B ->
  - (r * B) <= xh - x <= r * B.
Proof.
  intros Herr Hr HB. apply Qabs_Qle_condition.
  eapply Qle_trans; [exact Herr|].
  rewrite !(Qmult_comm r). apply Qmult_le_compat_r; [|assumption].
  now apply Qabs_Qle_condition.
Qed.

Lemma Qabs_bounds q : - Qabs q <= q <= Qabs q.
Proof. apply Qabs_Qle_condition, Qle_refl. Qed.

(** The six roundings of a write followed by a read, for a unit of scale
    [s] whose shifts are at most 274 in magnitude. *)
Ltac round_trip_chain H1 H2 H3 H4 H5 H6 D :=
  unfold Decimal.ulp_half, Decimal.ulp_div in *;
  apply rounding_within with (B := D + 274) in H1; [|lra|lra];
  apply rounding_within with (B := (101 # 100) * (D + 274)) in H2; [|lra|lra];
  apply rounding_within with (B := (21 # 10) * (D + 274)) in H3; [|lra|lra];
  apply rounding_within with (B := (11 # 10) * (D + 274)) in H4; [|lra|lra];
  apply rounding_within with (B := (11 # 10) * (D + 274)) in H5; [|lra|lra];
  apply rounding_within with (B := (21 # 10) * (D + 274)) in H6; [|lra|lra].

Lemma round_trip_scale s si so q a1 a2 kv b1 b2 r :
  s == 1 \/ s == 9 # 5 ->
  - (274) <= si <= 274 -> - (274) <= so <= 274 ->
  Qabs (a1 - (q - so)) <= Decimal.ulp_half * Qabs (q - so) ->
  Qabs (a2 * s - a1) <= Decimal.ulp_div * Qabs a1 ->
  Qabs (kv - (a2 - si)) <= Decimal.ulp_half * Qabs (a2 - si) ->
  Qabs (b1 - (kv + si)) <= Decimal.ulp_half * Qabs (kv + si) ->
  Qabs (b2 - b1 * s) <= Decimal.ulp_half * Qabs (b1 * s) ->
  Qabs (r - (b2 + so)) <= Decimal.ulp_half * Qabs (b2 + so) ->
  Qabs (r - q) <= tolerance * (Qabs q + 500).
Proof.
  intros [Hs|Hs] Hsi Hso H1 H2 H3 H4 H5 H6; rewrite Hs in H2, H5.
  2:{ pose proof (Qabs_bounds q) as HD. pose proof (Qabs_nonneg q) as HD0.
      set (D := Qabs q) in *.
      round_trip_chain H1 H2 H3 H4 H5 H6 D.
      apply Qabs_Qle_condition. unfold tolerance. split; lra. }
  pose proof (Qabs_bounds q) as HD. pose proof (Qabs_nonneg q) as HD0.
  set (D := Qabs q) in *.
  round_trip_chain H1 H2 H3 H4 H5 H6 D.
  apply Qabs_Qle_condition. unfold tolerance. split; lra.
Qed.

Lemma value_bounded eq0 eq1 eq2 nm :
  equations nm = Some (eq0, eq1, eq2) ->
  (Decimal.value eq0 == 1 \/ Decimal.value eq0 == 9 # 5) /\
  Decimal.mant eq0 <> 0%Z /\
  - (274) <= Decimal.value eq1 <= 274 /\
  - (274) <= Decimal.value eq2 <= 274.
Proof.
  destruct nm; intros [= <- <- <-]; (split; [|split; [|split]]);
    try (left; reflexivity); try (right; reflexivity);
    try discriminate; split; discriminate.
Qed.

Lemma round_trip_value nm eq dv kv q :
  equations nm = Some eq ->
  Decimal.value dv == q ->
  to_kelvin eq dv = Ok kv ->
  Qabs (Decimal.value (to_unit eq kv) - q) <= tolerance * (Qabs q + 500).
Proof.
  destruct eq as [[eq0 eq1] eq2]. intros Heq Hq Hk.
  destruct (value_bounded _ _ _ _ Heq) as (Hs & Hnz & Hsi & Hso).
  unfold to_kelvin in Hk. unfold to_unit.
  destruct (div_value (Decimal.sub dv eq2) eq0 Hnz) as (c & Hdiv & Hc).
  rewrite Hdiv in Hk. injection Hk as <-.
  pose proof (sub_value dv eq2) as H1. rewrite Hq in H1.
  pose proof (sub_value c eq1) as H3.
  pose proof (add_value (Decimal.sub c eq1) eq1) as H4.
  pose proof (mul_value (Decimal.add (Decimal.sub c eq1) eq1) eq0) as H5.
  pose proof (add_value (Decimal.mul (Decimal.add (Decimal.sub c eq1) eq1) eq0) eq2) as H6.
  exact (round_trip_scale _ _ _ _ _ _ _ _ _ _ Hs Hsi Hso H1 Hc H3 H4 H5 H6).
Qed.

Lemma number_Decimal_of v q :
  number v = Some q -> exists dv, Decimal_of v = Ok dv /\ Decimal.value dv == q.
Proof.
  intros Hq. destruct v as [|n|m e|d|l]; try discriminate; simpl;
    (eexists; split; [reflexivity|]); eapply Decimal_of_exact; try exact Hq; reflexivity.
Qed.

(** C4.  [Temperature(c=v)], and likewise with [f] or [r], stores the [k]
    that inverts the unit's transform on [v]; reading the unit back is the
    transform [(k + eq[1]) * eq[0] + eq[2]] of that [k]; and the value read
    differs from the number [q] that [v] stands for by at most
    [10^-26 * (|q| + 500)]: the two agree to 26 digits. *)
Theorem unit_round_trip (h h' : heap) key nm eq v q (t : loc) :
  unit_of_key key = Some nm ->
  equations nm = Some eq ->
  number v = Some q ->
  Temperature k_default [(key, v)] h = (h', Ok t) ->
  exists dv kv,
    Decimal_of v = Ok dv /\ Decimal.value dv == q /\
    to_kelvin eq dv = Ok kv /\
    h' !! t = Some (Instance (Some kv)) /\
    __getattr__ t nm h' = (h', Ok (to_unit eq kv)) /\
    Qabs (Decimal.value (to_unit eq kv) - q) <= tolerance * (Qabs q + 500).
Proof.
  intros Hkey Heq Hq. rewrite Temperature_spec. unfold constructed.
  change (written K k_default) with (@Ok Decimal zero).
  change (Decimal.ltb zero zero) with false. cbn [first_unit]. rewrite Hkey.
  destruct (number_Decimal_of v q Hq) as (dv & Hdv & Hval).
  unfold written. rewrite Hdv, Heq.
  destruct (to_kelvin eq dv) as [kv|e] eqn:Hk; [|discriminate].
  destruct (Decimal.ltb kv zero); [discriminate|]. intros [= <- <-].
  exists dv, kv.
  assert (Hl : (h ++ [Instance (Some kv)]) !! length h = Some (Instance (Some kv))).
  { apply list_lookup_middle. reflexivity. }
  repeat split; try assumption.
  - unfold __getattr__. rewrite Heq. unfold bind. rewrite (get_k_Some _ _ _ Hl). reflexivity.
  - eapply round_trip_value; eassumption.
Qed.

End RoundTrip.

(** An instance: 100 degrees Fahrenheit, stored as 310.9277... K. *)
Lemma unit_round_trip_witness :
  exists dv kv,
    Decimal_of (VInt 100) = Ok dv /\ (Decimal.value dv == inject_Z 100)%Q /\
    to_kelvin (Decimal.mk 18 (-1), Decimal.mk (-27315) (-2), Decimal.mk 320 (-1)) dv = Ok kv /\
    [Instance (Some (Decimal.mk 3109277777777777777777777778 (-25)))] !! 0%nat
      = Some (Instance (Some kv)).
Proof.
  destruct (unit_round_trip [] [Instance (Some (Decimal.mk 3109277777777777777777777778 (-25)))]
              "f"%string F (Decimal.mk 18 (-1), Decimal.mk (-27315) (-2), Decimal.mk 320 (-1))
              (VInt 100) (inject_Z 100) 0%nat)
    as (dv & kv & H1 & H2 & H3 & H4 & _); try reflexivity.
  exists dv, kv. repeat split; assumption.
Defined.

End UnitsFacts.

(** ** Devices *)

Module DevicesFacts.

Import Units Devices DecimalFacts UnitsFacts.

(** *** The [!=] of two data *)

Lemma is_ne_Qcompare x y : is_ne (x ?= y)%Q = true <-> ~ (x == y)%Q.
Proof.
  rewrite Qeq_alt. destruct (x ?= y)%Q; simpl; split; congruence.
Qed.

Lemma ne_None_r (self : loc) (h : heap) dk :
  h !! self = Some (Instance (Some dk)) -> __ne__ self VNone h = (h, Ok true).
Proof.
  intros Hk. unfold __ne__, comparison_method, bind. rewrite kelvin_spec.
  rewrite (get_k_Some _ _ _ Hk). reflexivity.
Qed.

Lemma meaning_number (h : heap) v q :
  meaning_of h v = Some (MNumber q) -> kelvin_value h v = Some q.
Proof.
  destruct v; simpl; try discriminate; try (intros [= <-]; reflexivity).
  destruct (h !! l) as [[[d|]]|]; simpl; try discriminate. intros [= <-]. reflexivity.
Qed.

Lemma meaning_ref (h : heap) (l : loc) m :
  meaning_of h (VRef l) = Some m ->
  exists dk, h !! l = Some (Instance (Some dk)) /\ m = MNumber (Decimal.value dk).
Proof.
  simpl. destruct (h !! l) as [[[d|]]|]; simpl; try discriminate.
  intros [= <-]. eauto.
Qed.

Lemma meaning_None (h : heap) v : meaning_of h v = Some MNone -> v = VNone.
Proof.
  destruct v; simpl; try discriminate; try reflexivity.
  destruct (h !! l) as [[[d|]]|]; discriminate.
Qed.

Lemma py_ne_numbers a b qa qb (h : heap) :
  number a = Some qa -> number b = Some qb ->
  py_ne a b h = (h, Ok (is_ne (qa ?= qb)%Q)).
Proof.
  intros Ha Hb.
  destruct a; try discriminate; destruct b; try discriminate;
    injection Ha as <-; injection Hb as <-; unfold py_ne; cbn [convert_other];
    rewrite cmp_spec, ?value_of_int, ?from_float_value; reflexivity.
Qed.

Lemma ne_ref (h : heap) (l : loc) x m mx :
  meaning_of h (VRef l) = Some m -> meaning_of h x = Some mx ->
  exists changed, __ne__ l x h = (h, Ok changed) /\ (changed = true <-> ~ same m mx).
Proof.
  intros Hl Hx. destruct (meaning_ref _ _ _ Hl) as (dk & Hk & ->).
  destruct mx as [|q].
  - apply meaning_None in Hx as ->. exists true. split; [now apply (ne_None_r _ _ dk)|].
    simpl. tauto.
  - apply meaning_number in Hx.
    eexists. split; [apply (comparison_method_spec is_ne _ _ _ _ _ Hk Hx)|].
    apply is_ne_Qcompare.
Qed.

Lemma same_sym x y : same x y -> same y x.
Proof. destruct x, y; simpl; try tauto. intros H. now symmetry. Qed.

Lemma ref_cases a : (exists l, a = VRef l) \/ ~ (exists l, a = VRef l).
Proof. destruct a; [right|right|right|right|left; eauto]; intros [l' [=]]. Qed.

(** [!=] tells whether the two data stand for different things. *)
Lemma py_ne_spec a b (h : heap) ma mb :
  meaning_of h a = Some ma -> meaning_of h b = Some mb ->
  exists changed, py_ne a b h = (h, Ok changed) /\ (changed = true <-> ~ same ma mb).
Proof.
  intros Ha Hb.
  destruct (ref_cases a) as [[l ->]|Hna].
  { apply (ne_ref _ _ _ _ _ Ha Hb). }
  destruct (ref_cases b) as [[l ->]|Hnb].
  { destruct (ne_ref _ _ _ _ _ Hb Ha) as (c & Hc & Hiff). exists c. split.
    - destruct a; try exact Hc. destruct Hna. eauto.
    - rewrite Hiff. split; intros H E; apply H, same_sym, E. }
  destruct ma as [|qa], mb as [|qb].
  - apply meaning_None in Ha as ->. apply meaning_None in Hb as ->.
    exists false. simpl. split; [reflexivity|]. split; [discriminate|tauto].
  - apply meaning_None in Ha as ->. exists true. simpl. split; [|tauto].
    destruct b; try discriminate Hb; try reflexivity. destruct Hnb. eauto.
  - apply meaning_None in Hb as ->. exists true. simpl. split; [|tauto].
    destruct a; try discriminate Ha; try reflexivity. destruct Hna. eauto.
  - assert (Hqa : number a = Some qa).
    { apply meaning_number in Ha. destruct a; try exact Ha. destruct Hna. eauto. }
    assert (Hqb : number b = Some qb).
    { apply meaning_number in Hb. destruct b; try exact Hb. destruct Hnb. eauto. }
    eexists. split; [apply (py_ne_numbers _ _ _ _ _ Hqa Hqb)|]. apply is_ne_Qcompare.
Qed.

(** *** A poll *)

(** The device after a successful poll. *)
Lemma heartbeat_success (w : world) resp now silent h1 prev h2 d t :
  id resp = 0 ->
  deepcopy (data (self_ w)) (temps w) = (h1, Ok prev) ->
  _parse (cls (self_ w)) (DA resp) h1 = (h2, Ok d) ->
  utcfromtimestamp (timestamp resp / 1000) = Ok t ->
  heartbeat resp now silent w =
  let self' := set_last_read t (set_data d (set_last_heartbeat now (self_ w))) in
  if silent then (World h2 self' (fired w), Ok (Some t, d))
  else
    match py_ne d prev h2 with
    | (h3, Ok changed) =>
        (World h3 self'
           (fired w ++ (HEARTBEAT, [d]) ::
              (if changed then [(CHANGE, [d; prev])] else [])),
         Ok (Some t, d))
    | (h3, Raise e) => (World h3 self' (fired w ++ [(HEARTBEAT, [d])]), Raise e)
    end.
Proof.
  intros Hid Hcopy Hparse Htime. unfold heartbeat. rewrite Hid. cbn [Z.eqb].
  unfold bind, get_self, in_heap, update_self, lift, _fire, ret.
  cbn [temps self_ fired]. rewrite Hcopy. cbn [temps self_ fired].
  rewrite Hparse. cbn [temps self_ fired]. rewrite Htime.
  destruct silent; cbn [negb temps self_ fired data set_last_read set_data last_read].
  - reflexivity.
  - destruct (py_ne d prev h2) as [h3 [[|]|e]]; cbn [temps self_ fired data last_read set_last_read];
      try reflexivity.
    rewrite <- app_assoc. reflexivity.
Qed.

Lemma heartbeat_failure (w : world) resp now silent :
  id resp <> 0 ->
  heartbeat resp now silent w = (w, Ok (last_read (self_ w), data (self_ w))).
Proof.
  intros Hid. unfold heartbeat. apply Z.eqb_neq in Hid. rewrite Hid. reflexivity.
Qed.

(** C1, amended.  A poll whose response has [id == 0], whose payload the
    [_parse] of the device's class turns into [d] and whose timestamp
    converts to the time [t], leaves the device with [data = d] and
    [last_read = t] together ([prev] and [h1] are the copy of the previous
    data and the heap that holds it).  A poll whose response has any other
    [id] changes nothing (not the data, not [last_read], not
    [last_heartbeat], not the list of fired events) and returns the pair
    [(last_read, data)] as it was. *)
Theorem heartbeat_updates_together (w : world) resp now silent :
  (id resp = 0 ->
   forall h1 prev h2 d t,
     deepcopy (data (self_ w)) (temps w) = (h1, Ok prev) ->
     _parse (cls (self_ w)) (DA resp) h1 = (h2, Ok d) ->
     utcfromtimestamp (timestamp resp / 1000) = Ok t ->
     let w' := (heartbeat resp now silent w).1 in
     data (self_ w') = d /\ last_read (self_ w') = Some t) /\
  (id resp <> 0 ->
   heartbeat resp now silent w = (w, Ok (last_read (self_ w), data (self_ w)))).
Proof.
  split.
  - intros Hid h1 prev h2 d t Hcopy Hparse Htime.
    rewrite (heartbeat_success _ _ _ _ _ _ _ _ _ Hid Hcopy Hparse Htime).
    destruct silent; [split; reflexivity|].
    destruct (py_ne d prev h2) as [h3 [changed|e]]; split; reflexivity.
  - apply heartbeat_failure.
Qed.

(** An instance: a temperature sensor that has not been polled reads 20
    degrees Celsius. *)
Lemma heartbeat_updates_together_witness :
  let sensor := {| cls := TemperatureSensor; guid := "t1"; type := Some "temperature"%string;
                   name := None; is_sensor := true; is_actuator := false;
                   data := VNone; last_heartbeat := None; last_read := None |} in
  let w := World [] sensor [] in
  let ok := {| id := 0; DA := VInt 20; timestamp := 1700000000123 |} in
  let ko := {| id := 7; DA := VInt 20; timestamp := 1700000000123 |} in
  (data (self_ (heartbeat ok 1700000001 false w).1) = VRef 0%nat /\
   last_read (self_ (heartbeat ok 1700000001 false w).1) = Some 1700000000) /\
  heartbeat ko 1700000001 false w = (w, Ok (None, VNone)).
Proof.
  intros sensor w ok ko. split.
  - destruct (heartbeat_updates_together w ok 1700000001 false) as [H _].
    apply (H eq_refl [] VNone [Instance (Some (Decimal.mk 29315 (-2)))] (VRef 0%nat) 1700000000);
      reflexivity.
  - destruct (heartbeat_updates_together w ko 1700000001 false) as [_ H].
    apply H. discriminate.
Defined.

(** Without the two provisos the statement fails.  A temperature sensor that is
    sent -300 degrees Celsius raises [ValueError] out of [heartbeat] and keeps
    its data and its [last_read]; a timestamp beyond the year 9999 raises
    after the data has been replaced, and [last_read] stays as it was. *)
Lemma heartbeat_updates_together_counterexample :
  let sensor := {| cls := TemperatureSensor; guid := "t1"; type := Some "temperature"%string;
                   name := None; is_sensor := true; is_actuator := false;
                   data := VNone; last_heartbeat := None; last_read := None |} in
  let w := World [] sensor [] in
  let below_zero := {| id := 0; DA := VInt (-300); timestamp := 1700000000123 |} in
  let far_future := {| id := 0; DA := VInt 20; timestamp := 300000000000000000 |} in
  ((heartbeat below_zero 1700000001 false w).2 = Raise ValueError /\
   data (self_ (heartbeat below_zero 1700000001 false w).1) = VNone /\
   last_read (self_ (heartbeat below_zero 1700000001 false w).1) = None) /\
  ((heartbeat far_future 1700000001 false w).2 = Raise ValueError /\
   data (self_ (heartbeat far_future 1700000001 false w).1) = VRef 0%nat /\
   last_read (self_ (heartbeat far_future 1700000001 false w).1) = None).
Proof. vm_compute. repeat split. Qed.

(** *** The events of a poll *)

Lemma meaning_extends (h ext : heap) v m :
  meaning_of h v = Some m -> meaning_of (h ++ ext) v = Some m.
Proof.
  destruct v as [| | | |l]; try (intros H; exact H).
  intros H. destruct (meaning_ref _ _ _ H) as (dk & Hk & ->).
  simpl. rewrite (lookup_app_l_Some _ _ _ _ Hk). reflexivity.
Qed.

Lemma deepcopy_spec v (h h1 : heap) prev m :
  deepcopy v h = (h1, Ok prev) -> meaning_of h v = Some m ->
  (exists ext, h1 = h ++ ext) /\ meaning_of h1 prev = Some m.
Proof.
  destruct v as [| | | |l]; try (intros [= <- <-] Hm; split;
    [exists []; now rewrite app_nil_r | exact Hm]).
  unfold deepcopy. intros Hc Hm. destruct (meaning_ref _ _ _ Hm) as (dk & Hk & ->).
  rewrite Hk in Hc. injection Hc as <- <-. split; [eauto|].
  simpl. rewrite list_lookup_middle by reflexivity. reflexivity.
Qed.

Lemma parse_extends c raw (h1 h2 : heap) d :
  _parse c raw h1 = (h2, Ok d) -> exists ext, h2 = h1 ++ ext.
Proof.
  assert (Hid : forall x : heap * result value, x = (h1, Ok raw) ->
                x = (h2, Ok d) -> exists ext, h2 = h1 ++ ext).
  { intros x -> [= <- _]. exists []. now rewrite app_nil_r. }
  destruct c; try (apply Hid; reflexivity).
  unfold _parse, bind. rewrite Temperature_spec. unfold constructed.
  destruct (written K k_default) as [d0|e]; [|discriminate].
  destruct (Decimal.ltb d0 zero); [discriminate|].
  destruct (first_unit _) as [[nm v]|]; [|intros [= <- _]; eauto].
  destruct (written nm v) as [d1|e]; [|discriminate].
  destruct (Decimal.ltb d1 zero); [discriminate|]. intros [= <- _]. eauto.
Qed.

(** C2, amended.  On a poll whose response has [id == 0], whose payload is
    parsed into [d] and whose timestamp converts, and that is not silent, [HEARTBEAT] is fired once
    with the new data, and [CHANGE] is fired after it, with the new data and
    the copy of the previous data, exactly when what the new data stands
    for differs from what the previous data stood for.  A silent poll fires
    nothing, and updates the device all the same. *)
Theorem heartbeat_events (w : world) resp now silent h1 prev h2 d t m_old m_new :
  id resp = 0 ->
  deepcopy (data (self_ w)) (temps w) = (h1, Ok prev) ->
  _parse (cls (self_ w)) (DA resp) h1 = (h2, Ok d) ->
  utcfromtimestamp (timestamp resp / 1000) = Ok t ->
  meaning_of (temps w) (data (self_ w)) = Some m_old ->
  meaning_of h2 d = Some m_new ->
  let w' := (heartbeat resp now silent w).1 in
  data (self_ w') = d /\ last_read (self_ w') = Some t /\
  meaning_of (temps w') prev = Some m_old /\
  exists changed : bool,
    (changed = true <-> ~ same m_new m_old) /\
    fired w' = fired w ++
      (if silent then []
       else (HEARTBEAT, [d]) :: (if changed then [(CHANGE, [d; prev])] else [])).
Proof.
  intros Hid Hcopy Hparse Htime Hold Hnew.
  destruct (deepcopy_spec _ _ _ _ _ Hcopy Hold) as [_ Hprev1].
  destruct (parse_extends _ _ _ _ _ Hparse) as [ext ->].
  pose proof (meaning_extends _ ext _ _ Hprev1) as Hprev.
  destruct (py_ne_spec _ _ _ _ _ Hnew Hprev) as (changed & Hne & Hiff).
  rewrite (heartbeat_success _ _ _ _ _ _ _ _ _ Hid Hcopy Hparse Htime).
  destruct silent; cbn zeta.
  - cbn [fst temps self_ fired]. repeat split; try assumption.
    exists changed. split; [assumption|]. now rewrite app_nil_r.
  - rewrite Hne. cbn [fst temps self_ fired]. repeat split; try assumption.
    exists changed. split; [assumption|reflexivity].
Qed.

(** An instance: a button that read 0 now reads 1. *)
Lemma heartbeat_events_witness :
  let button := {| cls := Button; guid := "b1"; type := Some "button"%string;
                   name := None; is_sensor := true; is_actuator := false;
                   data := VInt 0; last_heartbeat := None; last_read := None |} in
  let w := World [] button [] in
  let resp := {| id := 0; DA := VInt 1; timestamp := 1700000000123 |} in
  exists changed : bool,
    (changed = true <-> ~ same (MNumber (inject_Z 1)) (MNumber (inject_Z 0))) /\
    fired (heartbeat resp 1700000001 false w).1 =
      (HEARTBEAT, [VInt 1]) :: (if changed then [(CHANGE, [VInt 1; VInt 0])] else []).
Proof.
  intros button w resp.
  destruct (heartbeat_events w resp 1700000001 false [] (VInt 0) [] (VInt 1) 1700000000
              (MNumber (inject_Z 0)) (MNumber (inject_Z 1)))
    as (_ & _ & _ & changed & H1 & H2); try reflexivity.
  exists changed. split; [exact H1 | exact H2].
Defined.

(** Without the two provisos the statement fails: on the two polls above, which
    are not silent and whose response has [id == 0], no event is fired. *)
Lemma heartbeat_events_counterexample :
  let sensor := {| cls := TemperatureSensor; guid := "t1"; type := Some "temperature"%string;
                   name := None; is_sensor := true; is_actuator := false;
                   data := VNone; last_heartbeat := None; last_read := None |} in
  let w := World [] sensor [] in
  let below_zero := {| id := 0; DA := VInt (-300); timestamp := 1700000000123 |} in
  let far_future := {| id := 0; DA := VInt 20; timestamp := 300000000000000000 |} in
  fired (heartbeat below_zero 1700000001 false w).1 = [] /\
  fired (heartbeat far_future 1700000001 false w).1 = [].
Proof. vm_compute. split; reflexivity. Qed.

(** *** The dictionary of a device *)

Lemma asDict_for_json float self (h : heap) :
  asDict float self true h = (h, Raise TypeError).
Proof. reflexivity. Qed.

(** C5.  On a temperature sensor that holds a Temperature,
    [asDict(for_json=True)] does not return a dictionary: the call of
    [_dataToJSON] passes an argument that the method does not take, and
    [TypeError] is raised, whatever [float] would have made of the data. *)
Theorem asDict_for_json_raises :
  let sensor := {| cls := TemperatureSensor; guid := "t1"; type := Some "temperature"%string;
                   name := None; is_sensor := true; is_actuator := false;
                   data := VRef 0%nat; last_heartbeat := Some 1700000001;
                   last_read := Some 1700000000 |} in
  let h := [Instance (Some (Decimal.mk 29315 (-2)))] in
  forall float, asDict float sensor true h = (h, Raise TypeError).
Proof. intros sensor h float. apply asDict_for_json. Qed.

End DevicesFacts.

(** ** More on ninja/units.py: conversions, keywords, operators, accuracy *)

Module UnitsMore.

Import Units DecimalFacts UnitsFacts.

(** *** Truncation to an integer *)





(** *** Keywords of the constructor *)

Lemma unit_of_key_other key :
  key <> "c"%string -> key <> "f"%string -> key <> "r"%string -> unit_of_key key = None.
Proof.
  intros Hc Hf Hr. unfold unit_of_key.
  rewrite (proj2 (String.eqb_neq _ _) Hc), (proj2 (String.eqb_neq _ _) Hf),
          (proj2 (String.eqb_neq _ _) Hr).
  reflexivity.
Qed.

Lemma first_unit_none kwargs :
  (forall key v, In (key, v) kwargs ->
     key <> "c"%string /\ key <> "f"%string /\ key <> "r"%string) ->
  first_unit kwargs = None.
Proof.
  induction kwargs as [|[key v] rest IH]; intros H; [reflexivity|].
  cbn [first_unit]. destruct (H key v (or_introl eq_refl)) as (Hc & Hf & Hr).
  rewrite (unit_of_key_other key Hc Hf Hr).
  apply IH. intros key' v' Hin. apply (H key' v'). right. exact Hin.
Qed.

(** X2.  Keywords other than [c], [f] and [r] are ignored: the loop of
    [__init__] passes over them, and the construction is that of
    [Temperature(k0)], in its heap and in its outcome, errors included. *)
Theorem unknown_keywords_ignored k0 kwargs (h : heap) :
  (forall key v, In (key, v) kwargs ->
     key <> "c"%string /\ key <> "f"%string /\ key <> "r"%string) ->
  Temperature k0 kwargs h = Temperature k0 [] h.
Proof.
  intros H. rewrite !Temperature_spec. unfold constructed.
  rewrite (first_unit_none kwargs H). reflexivity.
Qed.

Lemma unknown_keywords_ignored_witness :
  Temperature (VInt 5) [("kelvin"%string, VInt 7); ("C"%string, VNone)] [] =
  Temperature (VInt 5) [] [].
Proof.
  apply unknown_keywords_ignored.
  intros key v [H|[H|[]]]; inversion H; subst; repeat split; discriminate.
Defined.


(** X3.  [Temperature(k0)] for an int, a float or a Decimal [k0] that is
    not negative returns a new instance, the next free one, whose [k] stands
    for exactly the number [k0] stands for (a float is not rounded), and
    reading [.k] returns this decimal. *)
Theorem kelvin_stored_exactly k0 q (h : heap) :
  number k0 = Some q -> (0 <= q)%Q ->
  exists d,
    Temperature k0 [] h = (h ++ [Instance (Some d)], Ok (length h)) /\
    (Decimal.value d == q)%Q /\
    __getattr__ (length h) K (h ++ [Instance (Some d)]) = (h ++ [Instance (Some d)], Ok d).
Proof.
  intros Hq Hpos. destruct (number_Decimal_of _ _ Hq) as (d & Hd & Hv).
  exists d. rewrite Temperature_spec. unfold constructed, written. rewrite Hd.
  cbn [equations]. rewrite (proj2 (ltb_zero_false d)) by (rewrite Hv; exact Hpos).
  cbn [first_unit]. split; [reflexivity|]. split; [exact Hv|].
  unfold __getattr__; cbn [equations]. apply get_k_Some, lookup_snoc_new.
Qed.

Lemma kelvin_stored_exactly_witness :
  exists d,
    Temperature (VFloat 5 (-1)) [] [] = ([] ++ [Instance (Some d)], Ok 0%nat) /\
    (Decimal.value d == inject_Z 5 * inject_Z 2 ^ (-1))%Q /\
    __getattr__ 0%nat K ([] ++ [Instance (Some d)]) = ([] ++ [Instance (Some d)], Ok d).
Proof.
  apply (kelvin_stored_exactly (VFloat 5 (-1)) (inject_Z 5 * inject_Z 2 ^ (-1))%Q []).
  - reflexivity.
  - discriminate.
Defined.

(** *** Operands *)













(** X8.  The four arithmetic operators and their in-place forms reject a
    float and [None] as right operand with [TypeError] (floats are accepted
    by the constructor, by attribute writes and by the comparisons only);
    nothing is created and nothing is changed. *)
Theorem float_operand_rejected o (h : heap) (self : loc) other kv :
  h !! self = Some (Instance (Some kv)) ->
  is_float other = true \/ other = VNone ->
  binary_method (decimal_op o) self other h = (h, Raise TypeError) /\
  inplace_method (decimal_op o) self other h = (h, Raise TypeError).
Proof.
  intros Hk Hother.
  rewrite (binary_method_spec _ _ _ _ _ Hk), (inplace_method_spec _ _ _ _ _ Hk).
  destruct Hother as [Hf| ->].
  - destruct other; try discriminate. split; reflexivity.
  - split; reflexivity.
Qed.

Lemma float_operand_rejected_witness :
  let h := [Instance (Some (Decimal.mk 40 0))] in
  __add__ 0%nat (VFloat 3 (-1)) h = (h, Raise TypeError) /\
  __iadd__ 0%nat (VFloat 3 (-1)) h = (h, Raise TypeError).
Proof.
  intros h. apply (float_operand_rejected Add h 0%nat (VFloat 3 (-1)) (Decimal.mk 40 0)).
  - reflexivity.
  - left. reflexivity.
Defined.

(** *** Laws of the operators *)

Lemma decimal_add_comm a b : Decimal.add a b = Decimal.add b a.
Proof. unfold Decimal.add. rewrite (Z.min_comm (Decimal.expo a)), Z.add_comm. reflexivity. Qed.

Lemma decimal_mul_comm a b : Decimal.mul a b = Decimal.mul b a.
Proof.
  unfold Decimal.mul. rewrite (Z.mul_comm (Decimal.mant a)), (Z.add_comm (Decimal.expo a)).
  reflexivity.
Qed.

(** X9.  Addition and multiplication of two Temperatures commute: [t1 + t2]
    and [t2 + t1] leave the same heap and have the same outcome, and so do
    [t1 * t2] and [t2 * t1]. *)
Theorem add_mul_commute (h : heap) (t1 t2 : loc) d1 d2 :
  h !! t1 = Some (Instance (Some d1)) ->
  h !! t2 = Some (Instance (Some d2)) ->
  __add__ t1 (VRef t2) h = __add__ t2 (VRef t1) h /\
  __mul__ t1 (VRef t2) h = __mul__ t2 (VRef t1) h.
Proof.
  intros H1 H2. unfold __add__, __mul__.
  rewrite !(binary_method_spec _ t1 _ _ _ H1), !(binary_method_spec _ t2 _ _ _ H2).
  cbn [operand]. rewrite H1, H2. cbn [arith convert_other total].
  rewrite (decimal_add_comm d1 d2), (decimal_mul_comm d1 d2). split; reflexivity.
Qed.

Lemma add_mul_commute_witness :
  let h := [Instance (Some (Decimal.mk 40 0)); Instance (Some (Decimal.mk 37315 (-2)))] in
  __add__ 0%nat (VRef 1%nat) h = __add__ 1%nat (VRef 0%nat) h /\
  __mul__ 0%nat (VRef 1%nat) h = __mul__ 1%nat (VRef 0%nat) h.
Proof.
  intros h. apply (add_mul_commute h 0%nat 1%nat (Decimal.mk 40 0) (Decimal.mk 37315 (-2))).
  - reflexivity.
  - reflexivity.
Defined.

(** X10.  An in-place operator computes what the binary operator computes:
    when [t op x] returns a new Temperature with Kelvin value [d], [t op= x]
    stores this [d] in [t] and returns [t]; when [t op x] raises, [t op= x]
    raises the same exception. *)
Theorem inplace_agrees_with_binary o (h : heap) (self : loc) other kv :
  h !! self = Some (Instance (Some kv)) ->
  match binary_method (decimal_op o) self other h with
  | (hb, Ok l) =>
      exists d, hb = h ++ [Instance (Some d)] /\ l = length h /\
                inplace_method (decimal_op o) self other h =
                (<[self := Instance (Some d)]> h, Ok self)
  | (hb, Raise e) =>
      (inplace_method (decimal_op o) self other h).2 = Raise e
  end.
Proof.
  intros Hk.
  rewrite (binary_method_spec _ _ _ _ _ Hk), (inplace_method_spec _ _ _ _ _ Hk).
  destruct (arith (decimal_op o) kv (operand h other)) as [d|e]; [|reflexivity].
  unfold constructed. rewrite written_Decimal.
  destruct (Decimal.ltb d zero); [reflexivity|].
  cbn [first_unit]. exists d. repeat split.
Qed.

Lemma inplace_agrees_with_binary_witness :
  let h := [Instance (Some (Decimal.mk 40 0))] in
  exists d, (__mul__ 0%nat (VInt 2) h).1 = h ++ [Instance (Some d)] /\
            __imul__ 0%nat (VInt 2) h = (<[0%nat := Instance (Some d)]> h, Ok 0%nat).
Proof.
  intros h.
  pose proof (inplace_agrees_with_binary Mul h 0%nat (VInt 2) (Decimal.mk 40 0) eq_refl) as H.
  destruct H as (d & Hb & _ & Hi). exists d. split; [exact Hb | exact Hi].
Defined.



Section Accuracy.

Local Open Scope Q_scope.








End Accuracy.

End UnitsMore.

(** ** More on ninja/devices.py: frames, sensors, buttons, the loop *)

Module DevicesMore.

Import Units Devices DecimalFacts UnitsFacts DevicesFacts.

(** *** What a poll leaves alone *)

Lemma comparison_method_heap test (self : loc) other (h : heap) :
  (comparison_method test self other h).1 = h.
Proof.
  unfold comparison_method, bind. rewrite kelvin_spec.
  unfold get_k. destruct (h !! self) as [[[d|]]|]; reflexivity.
Qed.

Lemma py_ne_heap a b (h : heap) : (py_ne a b h).1 = h.
Proof.
  unfold py_ne.
  destruct a; destruct b; try apply comparison_method_heap; try reflexivity.
Qed.

Lemma py_eq_heap a b (h : heap) : (py_eq a b h).1 = h.
Proof.
  unfold py_eq.
  destruct a; destruct b; try apply comparison_method_heap; try reflexivity.
Qed.

Lemma deepcopy_extends v (h : heap) : exists ext, (deepcopy v h).1 = h ++ ext.
Proof.
  destruct v as [| | | |l]; try (exists []; simpl; now rewrite app_nil_r).
  unfold deepcopy. destruct (h !! l) as [i|]; simpl; [eauto|].
  exists []. now rewrite app_nil_r.
Qed.

Lemma constructed_extends k0 kwargs (h : heap) :
  exists i, (constructed k0 kwargs h).1 = h ++ [i].
Proof.
  unfold constructed.
  destruct (written K k0) as [d0|e]; [|simpl; eauto].
  destruct (Decimal.ltb d0 zero); [simpl; eauto|].
  destruct (first_unit kwargs) as [[nm v]|]; [|simpl; eauto].
  destruct (written nm v) as [d|e]; [|simpl; eauto].
  destruct (Decimal.ltb d zero); simpl; eauto.
Qed.

Lemma parse_extends_any c raw (h : heap) : exists ext, (_parse c raw h).1 = h ++ ext.
Proof.
  assert (Hid : exists ext, (@ret heap value raw h).1 = h ++ ext).
  { exists []. simpl. now rewrite app_nil_r. }
  destruct c; try exact Hid.
  unfold _parse, bind. rewrite Temperature_spec.
  destruct (constructed_extends k_default [("c"%string, raw)] h) as [i Hi].
  destruct (constructed _ _ h) as [h' [l|e]]; simpl in *; eauto.
Qed.

Lemma bind_get_self {A B} (m : M world A) (g : device -> B) (w : world) :
  ((m ;;; self <- get_self ;; ret (g self)) w).1 = (m w).1.
Proof. unfold bind, get_self, ret. destruct (m w) as [w1 [a|e]]; reflexivity. Qed.

(** X14.  Whatever the response and however the call ends, [heartbeat]
    leaves the class, [guid], [type], [name], [is_sensor] and [is_actuator]
    of the device alone, keeps every existing Temperature instance as it is
    (it only creates new ones), and only appends to the events fired: at
    most two, and none when [silent] is set. *)
Theorem heartbeat_frame resp now silent (w : world) :
  let w' := (heartbeat resp now silent w).1 in
  identity (self_ w') = identity (self_ w) /\
  (exists created, temps w' = temps w ++ created) /\
  (exists events, fired w' = fired w ++ events /\
                  (length events <= 2)%nat /\
                  (silent = true -> events = [])).
Proof.
  intros w'. subst w'. unfold heartbeat. rewrite bind_get_self.
  destruct (id resp =? 0).
  2:{ cbn. split; [reflexivity|]. split; [exists []; now rewrite app_nil_r|].
      exists []. rewrite app_nil_r. repeat split. simpl. lia. }
  unfold bind, get_self, in_heap, update_self, lift, _fire, ret. cbn [temps self_ fired].
  destruct (deepcopy_extends (data (self_ w)) (temps w)) as [e1 H1].
  destruct (deepcopy (data (self_ w)) (temps w)) as [h1 [prev|e]]; simpl in H1; subst h1.
  2:{ cbn. split; [reflexivity|]. split; [eauto|]. exists []. rewrite app_nil_r.
      repeat split. simpl; lia. }
  cbn [temps self_ fired].
  destruct (parse_extends_any (cls (self_ w)) (DA resp) (temps w ++ e1)) as [e2 H2].
  cbn [cls set_last_heartbeat].
  destruct (_parse (cls (self_ w)) (DA resp) (temps w ++ e1)) as [h2 [d|e]];
    simpl in H2; subst h2; rewrite <- app_assoc.
  2:{ cbn. split; [reflexivity|]. split; [eauto|]. exists []. rewrite app_nil_r.
      repeat split. simpl; lia. }
  cbn [temps self_ fired].
  destruct (utcfromtimestamp (timestamp resp / 1000)) as [t|e].
  2:{ cbn. split; [reflexivity|]. split; [eauto|]. exists []. rewrite app_nil_r.
      repeat split. simpl; lia. }
  cbn [temps self_ fired].
  destruct silent; cbn [negb temps self_ fired].
  { cbn. split; [reflexivity|]. split; [eauto|]. exists []. rewrite app_nil_r.
    repeat split. simpl; lia. }
  cbn [data set_last_read set_data].
  pose proof (py_ne_heap d prev (temps w ++ e1 ++ e2)) as H3.
  destruct (py_ne d prev (temps w ++ e1 ++ e2)) as [h3 [[|]|e]]; simpl in H3; subst h3;
    cbn; (split; [reflexivity|]); (split; [eauto|]).
  - exists [(HEARTBEAT, [d]); (CHANGE, [d; prev])]. rewrite <- app_assoc.
    repeat split; [simpl; lia | discriminate].
  - exists [(HEARTBEAT, [d])]. repeat split; [simpl; lia | discriminate].
  - exists [(HEARTBEAT, [d])]. repeat split; [simpl; lia | discriminate].
Qed.

(** *** Temperature sensors *)








(** *** Construction and the first poll *)

Lemma is_eq_Qcompare x y : is_eq (x ?= y)%Q = true <-> (x == y)%Q.
Proof.
  rewrite Qeq_alt. destruct (x ?= y)%Q; simpl; split; congruence.
Qed.

(** [== n] tells whether a datum stands for the number [n]. *)
Lemma py_eq_int a n (h : heap) m :
  meaning_of h a = Some m ->
  exists r, py_eq a (VInt n) h = (h, Ok r) /\ (r = true <-> same m (MNumber (inject_Z n))).
Proof.
  intros Ha. destruct a as [|k|mm e|d|l].
  - injection Ha as <-. exists false. split; [reflexivity|]. simpl. split; [discriminate|tauto].
  - injection Ha as <-. eexists. split; [reflexivity|].
    rewrite cmp_spec, !value_of_int. apply is_eq_Qcompare.
  - injection Ha as <-. eexists. split; [reflexivity|].
    rewrite cmp_spec, value_of_int, from_float_value. apply is_eq_Qcompare.
  - injection Ha as <-. eexists. split; [reflexivity|].
    rewrite cmp_spec, value_of_int. apply is_eq_Qcompare.
  - destruct (meaning_ref _ _ _ Ha) as (dk & Hk & ->).
    eexists. split.
    + unfold py_eq, __eq__. apply (comparison_method_spec is_eq _ _ _ _ (inject_Z n) Hk).
      reflexivity.
    + apply is_eq_Qcompare.
Qed.

(** X17.  [__init__] with a descriptor whose [is_sensor] and [is_actuator]
    entries are numbers, Temperatures or absent returns a device of the
    class constructed, with the given [guid], the [device_type] and
    [shortName] of the descriptor as [type] and [name], no data, no
    [last_heartbeat] and no [last_read]; [is_sensor] is true exactly when the
    entry stands for the number 1 (so [1.0] counts and an absent entry does
    not), and likewise [is_actuator]. *)
Theorem init_fresh_device c g info (h : heap) ms ma :
  meaning_of h (info_is_sensor info) = Some ms ->
  meaning_of h (info_is_actuator info) = Some ma ->
  exists dev,
    Devices.__init__ c g info h = (h, Ok dev) /\
    cls dev = c /\ guid dev = g /\
    type dev = device_type info /\ name dev = shortName info /\
    data dev = VNone /\ last_heartbeat dev = None /\ last_read dev = None /\
    (is_sensor dev = true <-> same ms (MNumber 1)) /\
    (is_actuator dev = true <-> same ma (MNumber 1)).
Proof.
  intros Hs Ha.
  destruct (py_eq_int _ 1 _ _ Hs) as (s & Es & Hsi).
  destruct (py_eq_int _ 1 _ _ Ha) as (a & Ea & Hai).
  eexists. split.
  - unfold Devices.__init__, bind. rewrite Es, Ea. reflexivity.
  - cbn. repeat split; try apply Hsi; try apply Hai.
Qed.

Lemma init_fresh_device_witness :
  let info := {| device_type := Some "button"%string; shortName := Some "Button"%string;
                 info_is_sensor := VFloat 1 0; info_is_actuator := VNone |} in
  exists dev,
    Devices.__init__ Button "b1" info [] = ([], Ok dev) /\
    cls dev = Button /\ guid dev = "b1"%string /\
    type dev = device_type info /\ name dev = shortName info /\
    data dev = VNone /\ last_heartbeat dev = None /\ last_read dev = None /\
    (is_sensor dev = true <-> same (MNumber (inject_Z 1 * inject_Z 2 ^ 0)) (MNumber 1)) /\
    (is_actuator dev = true <-> same MNone (MNumber 1)).
Proof.
  intros info. apply (init_fresh_device Button "b1"%string info []); reflexivity.
Defined.

Lemma init_data c g info (h0 h : heap) dev :
  Devices.__init__ c g info h0 = (h, Ok dev) -> data dev = VNone /\ cls dev = c.
Proof.
  unfold Devices.__init__, bind, ret.
  destruct (py_eq (info_is_sensor info) (VInt 1) h0) as [h1 [s|e]]; [|discriminate].
  destruct (py_eq (info_is_actuator info) (VInt 1) h1) as [h2 [a|e]]; [|discriminate].
  intros [= _ <-]. split; reflexivity.
Qed.

(** X18.  The first poll of a device that [__init__] has just built, when
    it is not silent, succeeds and its datum [d] is a number or a
    Temperature, fires [HEARTBEAT] with [d] and then [CHANGE] with [d] and
    [None] as the previous data, and returns the time of the response
    together with [d]. *)
Theorem first_poll_fires_both c g info (h0 h : heap) dev resp now h2 d q t :
  Devices.__init__ c g info h0 = (h, Ok dev) ->
  id resp = 0 ->
  _parse c (DA resp) h = (h2, Ok d) ->
  meaning_of h2 d = Some (MNumber q) ->
  utcfromtimestamp (timestamp resp / 1000) = Ok t ->
  heartbeat resp now false (World h dev []) =
  (World h2 (set_last_read t (set_data d (set_last_heartbeat now dev)))
     [(HEARTBEAT, [d]); (CHANGE, [d; VNone])],
   Ok (Some t, d)).
Proof.
  intros Hinit Hid Hparse Hm Htime.
  destruct (init_data _ _ _ _ _ _ Hinit) as [Hdata Hcls].
  assert (Hcopy : deepcopy (data (self_ (World h dev []))) (temps (World h dev [])) =
                  (h, Ok VNone)).
  { cbn [self_ temps]. rewrite Hdata. reflexivity. }
  assert (Hp : _parse (cls (self_ (World h dev []))) (DA resp) h = (h2, Ok d)).
  { cbn [self_]. rewrite Hcls. exact Hparse. }
  rewrite (heartbeat_success _ _ _ _ _ _ _ _ _ Hid Hcopy Hp Htime).
  destruct (py_ne_spec d VNone h2 _ MNone Hm eq_refl) as (changed & Hne & Hiff).
  rewrite Hne. assert (changed = true) as -> by (apply Hiff; simpl; tauto).
  reflexivity.
Qed.

Lemma first_poll_fires_both_witness :
  let dev := {| cls := LightSensor; guid := "l1"; type := None; name := None;
                is_sensor := false; is_actuator := false;
                data := VNone; last_heartbeat := None; last_read := None |} in
  let resp := {| id := 0; DA := VInt 12; timestamp := 1700000000000 |} in
  heartbeat resp 1700000001 false (World [] dev []) =
  (World [] (set_last_read 1700000000 (set_data (VInt 12) (set_last_heartbeat 1700000001 dev)))
     [(HEARTBEAT, [VInt 12]); (CHANGE, [VInt 12; VNone])],
   Ok (Some 1700000000, VInt 12)).
Proof.
  intros dev resp.
  apply (first_poll_fires_both LightSensor "l1"%string no_info [] [] dev resp 1700000001 []
           (VInt 12) (inject_Z 12) 1700000000); reflexivity.
Defined.

(** *** Buttons *)

Lemma number_plain v q : number v = Some q -> plain v = true.
Proof. destruct v; try discriminate; reflexivity. Qed.

Lemma number_meaning (h : heap) v q : number v = Some q -> meaning_of h v = Some (MNumber q).
Proof. destruct v; try discriminate; simpl; intros H; injection H as <-; reflexivity. Qed.

Lemma deepcopy_plain v (h : heap) : plain v = true -> deepcopy v h = (h, Ok v).
Proof. destruct v; try discriminate; reflexivity. Qed.

Lemma py_ne_plain a b (h : heap) :
  plain a = true -> plain b = true -> exists changed, py_ne a b h = (h, Ok changed).
Proof.
  intros Ha Hb. destruct a; try discriminate; destruct b; try discriminate;
    unfold py_ne; cbn [convert_other]; eexists; reflexivity.
Qed.

Lemma parse_plain c raw (h : heap) :
  c <> TemperatureSensor -> _parse c raw h = (h, Ok raw).
Proof. intros Hc. destruct c; try reflexivity. contradiction. Qed.

(** X19.  After a button is polled with a numeric reading [q] (the response
    has [id == 0] and its timestamp converts), [isPushed] returns without
    changing anything and says whether [q] is zero as a number: [0], [0.0]
    and [Decimal(0)] all count as pushed. *)
Theorem button_pushed (w : world) resp now silent q t :
  cls (self_ w) = Button ->
  plain (data (self_ w)) = true ->
  id resp = 0 ->
  number (DA resp) = Some q ->
  utcfromtimestamp (timestamp resp / 1000) = Ok t ->
  let w' := (heartbeat resp now silent w).1 in
  exists pushed,
    isPushed (self_ w') (temps w') = (temps w', Ok pushed) /\
    (pushed = true <-> (q == 0)%Q).
Proof.
  intros Hcls Hplain Hid Hq Htime w'. subst w'.
  assert (Hparse : _parse (cls (self_ w)) (DA resp) (temps w) = (temps w, Ok (DA resp))).
  { apply parse_plain. rewrite Hcls. discriminate. }
  rewrite (heartbeat_success _ _ _ _ _ _ _ _ _ Hid (deepcopy_plain _ _ Hplain) Hparse Htime).
  cbv zeta.
  destruct (py_eq_int (DA resp) 0 (temps w) _ (number_meaning _ _ _ Hq)) as (r & Er & Hiff).
  exists r. split; [|exact Hiff].
  destruct silent; [exact Er|].
  destruct (py_ne_plain (DA resp) (data (self_ w)) (temps w) (number_plain _ _ Hq) Hplain)
    as (changed & ->).
  exact Er.
Qed.

Lemma button_pushed_witness :
  let button := {| cls := Button; guid := "b1"; type := Some "button"%string; name := None;
                   is_sensor := true; is_actuator := false;
                   data := VInt 1; last_heartbeat := None; last_read := None |} in
  let resp := {| id := 0; DA := VInt 0; timestamp := 1700000000000 |} in
  let w' := (heartbeat resp 1700000001 false (World [] button [])).1 in
  exists pushed,
    isPushed (self_ w') (temps w') = (temps w', Ok pushed) /\
    (pushed = true <-> (inject_Z 0 == 0)%Q).
Proof.
  intros button resp.
  apply (button_pushed (World [] button []) resp 1700000001 false (inject_Z 0) 1700000000);
    reflexivity.
Defined.

(** *** A reading that does not change *)







(** *** The polling loop *)

(** X21.  [pulse] has no handler around [heartbeat]: when the polls for the
    answers [before] have all returned and the next poll raises [e], the
    loop ends there with [e], in the state that poll left, and the later
    answers are never asked for. *)
Theorem pulse_stops_at_error before resp now after (w w1 w2 : world) e :
  pulse before w = (w1, Ok tt) ->
  heartbeat resp now false w1 = (w2, Raise e) ->
  pulse (before ++ (resp, now) :: after) w = (w2, Raise e).
Proof.
  revert w. induction before as [|[resp0 now0] rest IH]; intros w Hb Hh.
  - injection Hb as ->. cbn [app pulse]. unfold bind. rewrite Hh. reflexivity.
  - cbn [app pulse] in Hb |- *. unfold bind in Hb |- *.
    destruct (heartbeat resp0 now0 false w) as [w0 [r|e0]]; [|discriminate].
    apply IH; assumption.
Qed.

Lemma pulse_stops_at_error_witness :
  let sensor := {| cls := TemperatureSensor; guid := "t1"; type := Some "temperature"%string;
                   name := None; is_sensor := true; is_actuator := false;
                   data := VNone; last_heartbeat := None; last_read := None |} in
  let good := {| id := 0; DA := VInt 20; timestamp := 1700000000000 |} in
  let bad := {| id := 0; DA := VInt (-300); timestamp := 1700000060000 |} in
  let w1 := (pulse [(good, 1700000001)] (World [] sensor [])).1 in
  let w2 := (heartbeat bad 1700000061 false w1).1 in
  pulse ([(good, 1700000001)] ++ (bad, 1700000061) :: [(good, 1700000121)]) (World [] sensor [])
  = (w2, Raise ValueError).
Proof.
  intros sensor good bad w1 w2.
  apply (pulse_stops_at_error [(good, 1700000001)] bad 1700000061 [(good, 1700000121)]
           (World [] sensor []) w1 w2 ValueError); reflexivity.
Defined.

Lemma count_kind_app kind a b :
  count_kind kind (a ++ b) = (count_kind kind a + count_kind kind b)%nat.
Proof. unfold count_kind. rewrite List.filter_app, length_app. reflexivity. Qed.

Lemma last_cons {A} (l : list A) x d : List.last (x :: l) d = List.last l x.
Proof.
  revert x d. induction l as [|y l IH]; intros x d; [reflexivity|].
  change (List.last (x :: y :: l) d) with (List.last (y :: l) d).
  rewrite (IH y d). symmetry. apply IH.
Qed.

(** X22.  On a device of any class but [TemperatureSensor] whose data and
    readings are plain values ([None], numbers) and whose timestamps are in
    range, [pulse] keeps going through any sequence of answers: no iteration
    raises, no Temperature is created, the data at the end is the reading of
    the last answer with [id == 0] (the data at the start when there is
    none), [HEARTBEAT] has been fired once for each answer with [id == 0],
    and [CHANGE] at most as often. *)
Theorem pulse_of_plain_readings answers (w : world) :
  cls (self_ w) <> TemperatureSensor ->
  plain (data (self_ w)) = true ->
  Forall (fun a : response * datetime =>
            plain (DA a.1) = true /\
            exists t, utcfromtimestamp (timestamp a.1 / 1000) = Ok t) answers ->
  exists w',
    pulse answers w = (w', Ok tt) /\
    temps w' = temps w /\
    data (self_ w') =
      List.last (map (fun a : response * datetime => DA a.1) (List.filter answered answers))
                (data (self_ w)) /\
    count_kind HEARTBEAT (fired w') =
      (count_kind HEARTBEAT (fired w) + length (List.filter answered answers))%nat /\
    (count_kind CHANGE (fired w') <=
       count_kind CHANGE (fired w) + length (List.filter answered answers))%nat.
Proof.
  intros Hcls Hplain Hall. revert w Hcls Hplain.
  induction Hall as [|[resp now] rest [Hda [t Htime]] _ IH]; intros w Hcls Hplain.
  - exists w. cbn. repeat split; lia.
  - cbn [pulse List.filter]. cbn [fst] in Hda, Htime. unfold bind.
    destruct (Z.eq_dec (id resp) 0) as [Hid|Hid].
    + assert (Ha : answered (resp, now) = true) by (apply Z.eqb_eq; exact Hid).
      rewrite Ha.
      rewrite (heartbeat_success _ _ _ _ _ _ _ _ _ Hid (deepcopy_plain _ _ Hplain)
                 (parse_plain _ _ _ Hcls) Htime).
      cbv zeta.
      destruct (py_ne_plain (DA resp) (data (self_ w)) (temps w) Hda Hplain) as (changed & ->).
      match goal with |- context [pulse rest ?w1] =>
        destruct (IH w1) as (w' & Hp & Ht & Hd & Hh & Hc); [exact Hcls | exact Hda |] end.
      exists w'. split; [exact Hp|]. split; [exact Ht|].
      cbn [map]. rewrite last_cons. split; [exact Hd|].
      cbn [fired] in Hh, Hc. rewrite count_kind_app in Hh, Hc.
      cbn [length].
      destruct changed; unfold count_kind in *; cbn in Hh, Hc |- *; split; lia.
    + assert (Ha : answered (resp, now) = false) by (apply Z.eqb_neq; exact Hid).
      rewrite Ha. rewrite (heartbeat_failure _ _ _ _ Hid).
      destruct (IH w Hcls Hplain) as (w' & Hp & Ht & Hd & Hh & Hc).
      exists w'. repeat split; assumption.
Qed.

Lemma pulse_of_plain_readings_witness :
  let dev := {| cls := LightSensor; guid := "l1"; type := None; name := None;
                is_sensor := true; is_actuator := false;
                data := VNone; last_heartbeat := None; last_read := None |} in
  let w := World [] dev [] in
  let answers := [({| id := 0; DA := VInt 12; timestamp := 1700000000000 |}, 1700000001);
                  ({| id := 4; DA := VNone; timestamp := 0 |}, 1700000061);
                  ({| id := 0; DA := VInt 12; timestamp := 1700000120000 |}, 1700000121)] in
  exists w',
    pulse answers w = (w', Ok tt) /\
    temps w' = temps w /\
    data (self_ w') =
      List.last (map (fun a : response * datetime => DA a.1) (List.filter answered answers))
                (data (self_ w)) /\
    count_kind HEARTBEAT (fired w') =
      (count_kind HEARTBEAT (fired w) + length (List.filter answered answers))%nat /\
    (count_kind CHANGE (fired w') <=
       count_kind CHANGE (fired w) + length (List.filter answered answers))%nat.
Proof.
  intros dev w answers. apply (pulse_of_plain_readings answers w).
  - discriminate.
  - reflexivity.
  - repeat constructor; eexists; reflexivity.
Defined.

(** *** The registry *)

(** X23.  A class that [TYPE_MAP] has under some key is never the base
    class [Device]; it is [TemperatureSensor] exactly under the key
    [temperature], and under every other key its [_parse] is the
    pass-through: the payload is returned as it is and the heap is not
    touched. *)
Theorem registry_parses_temperature_only key c :
  dict_get TYPE_MAP key = Some c ->
  c <> Device /\
  (key = "temperature"%string <-> c = TemperatureSensor) /\
  (key <> "temperature"%string -> forall raw (h : heap), _parse c raw h = (h, Ok raw)).
Proof.
  unfold TYPE_MAP. cbn [dict_get]. intros H.
  repeat match type of H with
  | (if String.eqb ?k key then _ else _) = _ =>
      destruct (String.eqb_spec k key) as [<-|?]; [injection H as <-|]
  end; try discriminate;
  (split; [discriminate|]); (split; [split; [discriminate || reflexivity | discriminate || reflexivity]|]);
  solve [ intros _; reflexivity | intros Hn; contradiction Hn; reflexivity | intros; reflexivity ].
Qed.

Lemma registry_parses_temperature_only_witness :
  Button <> Device /\
  ("button"%string = "temperature"%string <-> Button = TemperatureSensor) /\
  ("button"%string <> "temperature"%string ->
   forall raw (h : heap), _parse Button raw h = (h, Ok raw)).
Proof. apply (registry_parses_temperature_only "button"%string Button). reflexivity. Defined.

End DevicesMore.
